(** * make_livp: building Live Photo containers

    A shallow embedding of [tools/livp_action/make_livp.py] and the
    properties of its conversion pipeline.

    The program drives three external tools (a transcoder, a prober and a
    metadata editor) and packs their results into a two-entry archive.
    Everything outside the program is kept abstract in an environment
    [Env]: what a subprocess does to the file system and how it ends (an
    exit status, or a failure to start), the identifiers [uuid.uuid4]
    draws, the temporary directory handed out, and the local time zone.
    The program itself is embedded as state passing over that
    environment, with an error result for the exceptions it raises.

    Conventions.
    - A text is a [string]; its characters stand for code points below
      256.
    - A Python [int] is a [Z]; a Python [float] is a [spec_float].
    - A [pathlib.Path] is the list of its components.
    - Library objects are modelled at the level of their attributes:
      [zipfile.ZipInfo] is a record, and an archive is the list of the
      entries its directory holds, each with the record as the writer
      leaves it and the bytes stored.  What the library does to a record
      is followed: the constructor refuses a year before 1980 and cuts
      the name at its first null character; the writer clears the flag
      bits, puts [0o600 << 16] in the place of external attributes 0,
      raises the versions to 45 for an entry above the ZIP64 limit, and
      refuses a header whose fields do not fit their width (a year from
      2108 on, a name above 65535 bytes).  The byte layout itself is not
      modelled: on disk the seconds of a timestamp are kept in steps of
      two, and a name outside ASCII sets the UTF-8 flag bit.  The output
      file of [zipfile.ZipFile(out_path, "w")] can always be opened.
    - The modification time of a path is part of the system state and
      moves only when a subprocess moves it; the new time that creating
      the output file gives to the output path itself is not followed
      (build_livp never packs from the path it packs to). *)

From Stdlib Require Import ZArith NArith Ascii String DecimalString SpecFloat.
From Stdlib Require DecimalPos DecimalN.
From stdpp Require Import gmap strings list sorting.

Local Open Scope string_scope.
Local Open Scope Z_scope.

#[local] Arguments String.append !_ _ : simpl nomatch.

(** ** Texts and numbers *)

Module Text.

(** [str(n)] and [f"{n}"] for an [int]. *)
Definition str_int (z : Z) : string := NilZero.string_of_int (Z.to_int z).

Definition str_N (n : N) : string := NilZero.string_of_uint (N.to_uint n).

Fixpoint zeros (k : nat) : string :=
  match k with
  | O => ""
  | S k' => String "0" (zeros k')
  end.

(** [s.zfill(w)] for a text without sign. *)
Definition zfill (w : nat) (s : string) : string :=
  zeros (w - String.length s) ++ s.

(** [f"{z:04d}"]: the sign counts in the width and comes before the
    zeros. *)
Definition fmt_04d (z : Z) : string :=
  if z <? 0 then "-" ++ zfill 3 (str_N (Z.to_N (- z)))
  else zfill 4 (str_N (Z.to_N z)).

(** Rounding of [n / d] to the nearest integer, ties to the even one. *)
Definition round_half_even (n d : N) : N :=
  let q := (n / d)%N in
  let r := (n mod d)%N in
  if (2 * r <? d)%N then q
  else if (d <? 2 * r)%N then (q + 1)%N
  else if N.even q then q else (q + 1)%N.

(** The absolute value of a finite float, in thousandths, correctly
    rounded. *)
Definition thousandths (m : positive) (e : Z) : N :=
  match e with
  | Z0 => (Npos m * 1000)%N
  | Zpos p => (Npos m * 2 ^ Npos p * 1000)%N
  | Zneg p => round_half_even (Npos m * 1000) (2 ^ Npos p)
  end.

Definition digit (n : N) : ascii := ascii_of_N (48 + n mod 10).

Definition three_digits (n : N) : string :=
  String (digit (n / 100)) (String (digit (n / 10)) (String (digit n) "")).

Definition sign_text (s : bool) : string := if s then "-" else "".

Definition fixed3 (s : bool) (t : N) : string :=
  sign_text s ++ str_N (t / 1000) ++ "." ++ three_digits (t mod 1000).

(** [f"{x:.3f}"]. *)
Definition fmt_3f (x : spec_float) : string :=
  match x with
  | S754_zero s => fixed3 s 0
  | S754_infinity s => sign_text s ++ "inf"
  | S754_nan => "nan"
  | S754_finite s m e => fixed3 s (thousandths m e)
  end.

Definition is_finite (x : spec_float) : bool :=
  match x with
  | S754_zero _ | S754_finite _ _ _ => true
  | _ => false
  end.

(** [str.isspace] on one character. *)
Definition is_space (c : ascii) : bool :=
  let n := N_of_ascii c in
  ((9 <=? n) && (n <=? 13) || (28 <=? n) && (n <=? 32)
   || (n =? 133) || (n =? 160))%N.

Fixpoint lstrip (s : string) : string :=
  match s with
  | String c r => if is_space c then lstrip r else s
  | EmptyString => ""
  end.

Fixpoint rev_string (s acc : string) : string :=
  match s with
  | EmptyString => acc
  | String c r => rev_string r (String c acc)
  end.

(** [s.strip()]. *)
Definition strip (s : string) : string :=
  rev_string (lstrip (rev_string (lstrip s) "")) "".

(** Truth value of a text: [bool(s)]. *)
Definition truthy (s : string) : bool :=
  match s with
  | EmptyString => false
  | String _ _ => true
  end.

(** [a or b] on texts. *)
Definition text_or (a b : string) : string := if truthy a then a else b.

Definition is_lower (c : ascii) : bool :=
  let n := N_of_ascii c in ((97 <=? n) && (n <=? 122))%N.

Definition upper_char (c : ascii) : ascii :=
  if is_lower c then ascii_of_N (N_of_ascii c - 32) else c.

(** [s.upper()], on the characters an identifier text is made of. *)
Fixpoint upper (s : string) : string :=
  match s with
  | EmptyString => ""
  | String c r => String (upper_char c) (upper r)
  end.

(** The line feed. *)
Definition nl : string := String "010" "".

Definition is_digit (c : ascii) : bool :=
  let n := N_of_ascii c in ((48 <=? n) && (n <=? 57))%N.

Fixpoint all_chars (p : ascii -> bool) (s : string) : bool :=
  match s with
  | EmptyString => true
  | String c r => p c && all_chars p r
  end.

Definition not_char (c x : ascii) : bool := negb (Ascii.eqb x c).

(** [c in s]. *)
Definition has_char (c : ascii) (s : string) : bool :=
  negb (all_chars (not_char c) s).

(** [str.isprintable] on one character. *)
Definition is_printable (c : ascii) : bool :=
  let n := N_of_ascii c in
  ((32 <=? n) && (n <? 127) || (161 <=? n) && negb (n =? 173))%N.

Definition hex_digit (n : N) : ascii :=
  if (n <? 10)%N then ascii_of_N (48 + n) else ascii_of_N (87 + n).

(** One character inside [repr(s)], between the quotes [quote]. *)
Definition repr_char (quote c : ascii) : string :=
  if Ascii.eqb c quote || Ascii.eqb c "092"
  then String "092" (String c "")
  else if Ascii.eqb c "009" then String "092" "t"
  else if Ascii.eqb c "010" then String "092" "n"
  else if Ascii.eqb c "013" then String "092" "r"
  else if is_printable c then String c ""
  else String "092"
         (String "x"
            (String (hex_digit (N_of_ascii c / 16))
               (String (hex_digit (N_of_ascii c mod 16)) ""))).

Fixpoint repr_body (quote : ascii) (s : string) : string :=
  match s with
  | EmptyString => ""
  | String c r => repr_char quote c ++ repr_body quote r
  end.

(** [repr(s)]: in single quotes, in double quotes when [s] holds a
    single quote and no double quote. *)
Definition repr (s : string) : string :=
  let quote : ascii :=
    if has_char "039"%char s && negb (has_char "034"%char s)
    then "034"%char else "039"%char in
  String quote (repr_body quote s ++ String quote "").

(** [s[0:s.find(chr(0))]] when [s] holds a null character, [s]
    otherwise. *)
Fixpoint until_nul (s : string) : string :=
  match s with
  | EmptyString => ""
  | String c r => if Ascii.eqb c "000" then "" else String c (until_nul r)
  end.

(** [len(s.encode("ascii"))], or [len(s.encode("utf-8"))] when [s] is
    not ASCII. *)
Fixpoint encoded_length (s : string) : Z :=
  match s with
  | EmptyString => 0
  | String c r =>
      (if (N_of_ascii c <? 128)%N then 1 else 2) + encoded_length r
  end.

End Text.

Import Text.

(** 2.9 as a binary64: 6530219459687219 * 2^-51 *)
Definition float_2_9 : spec_float := S754_finite false 6530219459687219 (-51).
(** 0.5 *)
Definition float_0_5 : spec_float := S754_finite false 1 (-1).

(** ** Paths *)

Module Path.

(** A path is the list of its components, as [PurePath.parts]. *)
Definition t : Type := list string.

(** [p / name], for a [name] that is one component. *)
Definition join (p : t) (name : string) : t := (p ++ [name])%list.

(** [str(p)]. *)
Definition str (p : t) : string := String.concat "/" p.

(** [p.name]: the final component. *)
Definition name (p : t) : string := List.last p "".

(** Position of the last ["."] of a text, [s.rfind(".")]. *)
Fixpoint rfind_dot (s : string) (i : nat) (found : option nat) : option nat :=
  match s with
  | EmptyString => found
  | String c r =>
      rfind_dot r (S i) (if Ascii.eqb c "." then Some i else found)
  end.

(** [p.stem]: the final component without its suffix.  A leading dot or
    a trailing dot does not start a suffix. *)
Definition stem (p : t) : string :=
  let n := name p in
  match rfind_dot n 0 None with
  | Some i =>
      if ((0 <? i) && (i <? String.length n - 1))%nat
      then String.substring 0 i n else n
  | None => n
  end.

End Path.

(** ** The commands handed to the tools *)

(** The [-vf] argument, assembled from the four literals of the source. *)
Definition video_filter (max_width max_height fps : Z) : string :=
  ("scale=min(" ++ str_int max_width ++ ",iw):min(" ++ str_int max_height ++ ",ih):")
  ++ "force_original_aspect_ratio=decrease,"
  ++ "scale=trunc(iw/2)*2:trunc(ih/2)*2,"
  ++ ("fps=" ++ str_int fps).

(** The command of either branch of [build_video]: [audio] is the answer
    of the probe. *)
Definition encoder_cmd (ffmpeg_path : string) (src dst : Path.t)
    (max_duration : spec_float) (fps max_width max_height : Z)
    (audio : bool) : list string :=
  let vf := video_filter max_width max_height fps in
  if audio then
    [ ffmpeg_path; "-y"; "-i"; Path.str src;
      "-map"; "0:v:0"; "-map"; "0:a:0";
      "-vf"; vf; "-t"; fmt_3f max_duration;
      "-c:v"; "libx264"; "-pix_fmt"; "yuv420p";
      "-profile:v"; "high"; "-level"; "4.1";
      "-c:a"; "aac"; "-b:a"; "128k"; "-ar"; "44100"; "-ac"; "2";
      "-shortest"; Path.str dst ]
  else
    [ ffmpeg_path; "-y"; "-i"; Path.str src;
      "-f"; "lavfi"; "-i"; "anullsrc=channel_layout=stereo:sample_rate=44100";
      "-map"; "0:v:0"; "-map"; "1:a:0";
      "-vf"; vf; "-t"; fmt_3f max_duration;
      "-c:v"; "libx264"; "-pix_fmt"; "yuv420p";
      "-profile:v"; "high"; "-level"; "4.1";
      "-c:a"; "aac"; "-b:a"; "128k"; "-ar"; "44100"; "-ac"; "2";
      "-shortest"; Path.str dst ].

(** The probe command of [has_audio]. *)
Definition probe_cmd (ffprobe_path : string) (src : Path.t) : list string :=
  [ ffprobe_path; "-v"; "error"; "-select_streams"; "a";
    "-show_entries"; "stream=index"; "-of"; "csv=p=0"; Path.str src ].

(** The command of [extract_still]. *)
Definition still_cmd (ffmpeg_path : string) (src dst : Path.t)
    (cover_time : spec_float) : list string :=
  [ ffmpeg_path; "-y"; "-ss"; fmt_3f cover_time; "-i"; Path.str src;
    "-frames:v"; "1"; "-q:v"; "2"; Path.str dst ].

(** The two commands of [write_metadata]. *)
Definition exif_video_cmd (exiftool_path : string) (video_path : Path.t)
    (content_id : string) : list string :=
  [ exiftool_path; "-m"; "-overwrite_original";
    "-QuickTime:ContentIdentifier=" ++ content_id;
    "-QuickTime:LivePhoto=1"; "-QuickTime:LivePhotoAuto=1";
    Path.str video_path ].

Definition exif_image_cmd (exiftool_path : string) (image_path : Path.t)
    (content_id : string) : list string :=
  [ exiftool_path; "-m"; "-overwrite_original";
    "-Apple:ContentIdentifier=" ++ content_id;
    "-XMP:AssetIdentifier=" ++ content_id;
    Path.str image_path ].

(** ** The environment and the state *)

(** The exceptions the program raises or lets through; the text is
    [str(exc)]. *)
Inductive exn : Type :=
| RuntimeError (msg : string)
| OSError (msg : string)
| ValueError (msg : string)
| OverflowError (msg : string)
| struct_error (msg : string).

Definition str_exn (e : exn) : string :=
  match e with
  | RuntimeError msg => msg
  | OSError msg => msg
  | ValueError msg => msg
  | OverflowError msg => msg
  | struct_error msg => msg
  end.

Inductive result (A : Type) : Type :=
| Ok (a : A)
| Raise (e : exn).

Arguments Ok {A} a.
Arguments Raise {A} e.

(** A [datetime.datetime], local time. *)
Record datetime : Type := mk_datetime {
  dt_year : Z; dt_month : Z; dt_day : Z;
  dt_hour : Z; dt_minute : Z; dt_second : Z;
  dt_microsecond : Z
}.

Definition zip_date : Type := (Z * Z * Z * Z * Z * Z)%type.

(** [date_time[0]]. *)
Definition year (d : zip_date) : Z := let '(y, _, _, _, _, _) := d in y.

(** The date and the time of day as [ZipInfo.FileHeader] packs them into
    two bytes each. *)
Definition dosdate (d : zip_date) : Z :=
  let '(y, mo, da, _, _, _) := d in
  Z.lor (Z.lor (Z.shiftl (y - 1980) 9) (Z.shiftl mo 5)) da.

Definition dostime (d : zip_date) : Z :=
  let '(_, _, _, h, mi, sec) := d in
  Z.lor (Z.lor (Z.shiftl h 11) (Z.shiftl mi 5)) (sec / 2).

(** [0 <= v <= top]. *)
Definition fits (top v : Z) : bool := (0 <=? v) && (v <=? top).

(** The attributes of a [zipfile.ZipInfo] the program touches. *)
Record ZipInfo : Type := mk_ZipInfo {
  filename : string;
  date_time : zip_date;
  compress_type : Z;
  flag_bits : Z;
  create_system : Z;
  create_version : Z;
  extract_version : Z;
  external_attr : Z
}.

Definition ZIP_STORED : Z := 0.
Definition DEFAULT_VERSION : Z := 20.
Definition ZIP64_VERSION : Z := 45.
Definition ZIP64_LIMIT : Z := 2 ^ 31 - 1.

(** Attribute assignments [info.attr = v]. *)
Definition set_compress_type (v : Z) (i : ZipInfo) : ZipInfo :=
  mk_ZipInfo (filename i) (date_time i) v (flag_bits i) (create_system i)
    (create_version i) (extract_version i) (external_attr i).

Definition set_flag_bits (v : Z) (i : ZipInfo) : ZipInfo :=
  mk_ZipInfo (filename i) (date_time i) (compress_type i) v (create_system i)
    (create_version i) (extract_version i) (external_attr i).

Definition set_create_system (v : Z) (i : ZipInfo) : ZipInfo :=
  mk_ZipInfo (filename i) (date_time i) (compress_type i) (flag_bits i) v
    (create_version i) (extract_version i) (external_attr i).

Definition set_create_version (v : Z) (i : ZipInfo) : ZipInfo :=
  mk_ZipInfo (filename i) (date_time i) (compress_type i) (flag_bits i)
    (create_system i) v (extract_version i) (external_attr i).

Definition set_extract_version (v : Z) (i : ZipInfo) : ZipInfo :=
  mk_ZipInfo (filename i) (date_time i) (compress_type i) (flag_bits i)
    (create_system i) (create_version i) v (external_attr i).

Definition set_external_attr (v : Z) (i : ZipInfo) : ZipInfo :=
  mk_ZipInfo (filename i) (date_time i) (compress_type i) (flag_bits i)
    (create_system i) (create_version i) (extract_version i) v.

(** What a file holds: plain bytes, or an archive written by the
    program, kept as the list of its entries. *)
Inductive content : Type :=
| Blob (data : string)
| Archive (entries : list (ZipInfo * string)).

(** The part of the world subprocesses share with the program. *)
Record Sys : Type := mk_Sys {
  files : gmap Path.t content;
  st_mtime : Path.t -> option spec_float
}.

(** How [subprocess.run(..., check=False)] ends: the process ran and
    exited, or it could not be started and [run] raised. *)
Inductive completion : Type :=
| Exited (returncode : Z) (stdout stderr : string)
| NotStarted (msg : string).

Record Env : Type := mk_Env {
  (** running a command: its completion and what it did to the world *)
  subprocess_run : list string -> Sys -> completion * Sys;
  (** [str(uuid.uuid4())] of the n-th identifier drawn *)
  uuid4_str : nat -> string;
  (** the directory [tempfile.TemporaryDirectory(prefix="livp_")] creates *)
  mkdtemp : Sys -> Path.t;
  (** [datetime.fromtimestamp], [None] when it raises *)
  fromtimestamp : spec_float -> option datetime;
  (** [ZipInfo.create_system] as the constructor sets it for the platform *)
  platform_create_system : Z;
  (** the bytes on disk of an archive with the given entries *)
  archive_bytes : list (ZipInfo * string) -> string
}.

Record State : Type := mk_State {
  sys : Sys;
  (** number of identifiers drawn so far *)
  drawn : nat;
  (** the commands handed to [subprocess.run], oldest first *)
  trace : list (list string);
  (** the lines printed, oldest first *)
  printed : list string
}.

Definition M (A : Type) : Type := State -> result A * State.

Definition ret {A : Type} (a : A) : M A := fun st => (Ok a, st).

Definition raise {A : Type} (e : exn) : M A := fun st => (Raise e, st).

Definition bind {A B : Type} (m : M A) (k : A -> M B) : M B :=
  fun st =>
    match m st with
    | (Ok a, st') => k a st'
    | (Raise e, st') => (Raise e, st')
    end.

Notation "'do' x <- m ;; k" := (bind m (fun x => k))
  (at level 10, x name, m at level 99, k at level 200).
Notation "'exec' m ;; k" := (bind m (fun _ => k))
  (at level 10, m at level 99, k at level 200).

Definition set_sys (s : Sys) (st : State) : State :=
  {| sys := s; drawn := drawn st; trace := trace st; printed := printed st |}.

Definition set_files (f : gmap Path.t content) (s : Sys) : Sys :=
  {| files := f; st_mtime := st_mtime s |}.

(** [subprocess.run(cmd, capture_output=True, text=True, check=False)]. *)
Definition run (E : Env) (cmd : list string) : State -> completion * State :=
  fun st =>
    let '(c, s) := subprocess_run E cmd (sys st) in
    (c, {| sys := s; drawn := drawn st;
           trace := (trace st ++ [cmd])%list; printed := printed st |}).

(** [print(line)]. *)
Definition print (line : string) (st : State) : State :=
  {| sys := sys st; drawn := drawn st; trace := trace st;
     printed := (printed st ++ [line])%list |}.

(** [p.exists()]. *)
Definition path_exists (p : Path.t) : M bool :=
  fun st => (Ok (bool_decide (is_Some (files (sys st) !! p))), st).

(** [p.read_bytes()]. *)
Definition read_bytes (E : Env) (p : Path.t) : M string :=
  fun st =>
    match files (sys st) !! p with
    | Some (Blob d) => (Ok d, st)
    | Some (Archive es) => (Ok (archive_bytes E es), st)
    | None =>
        (Raise (OSError ("[Errno 2] No such file or directory: "
                         ++ repr (Path.str p))), st)
    end.

(** [str(uuid.uuid4()).upper()]. *)
Definition fresh_content_id (E : Env) : M string :=
  fun st =>
    (Ok (upper (uuid4_str E (drawn st))),
     {| sys := sys st; drawn := S (drawn st); trace := trace st;
        printed := printed st |}).

(** ** The program *)

Section Program.

Context (E : Env).
Context (ffmpeg_path ffprobe_path exiftool_path : string).

(** Lines 17-28. *)
Definition run_cmd (cmd : list string) (label : string) : M unit :=
  fun st =>
    let '(c, st') := run E cmd st in
    match c with
    | NotStarted msg => (Raise (OSError msg), st')
    | Exited returncode stdout stderr =>
        if negb (returncode =? 0) then
          let err := strip (text_or stderr (text_or stdout "")) in
          (Raise (RuntimeError (label ++ " failed: " ++ err)), st')
        else (Ok tt, st')
    end.

(** Lines 31-53. *)
Definition has_audio (src : Path.t) : M bool :=
  fun st =>
    let '(c, st') := run E (probe_cmd ffprobe_path src) st in
    match c with
    | NotStarted msg => (Raise (OSError msg), st')
    | Exited returncode stdout stderr =>
        if negb (returncode =? 0) then (Ok false, st')
        else (Ok (truthy (strip (text_or stdout ""))), st')
    end.

(** Lines 56-143. *)
Definition build_video (src dst : Path.t) (max_duration : spec_float)
    (fps max_width max_height : Z) : M unit :=
  do audio <- has_audio src ;;
  run_cmd
    (encoder_cmd ffmpeg_path src dst max_duration fps max_width max_height audio)
    "ffmpeg video".

(** Lines 146-162. *)
Definition extract_still (src dst : Path.t) (cover_time : spec_float) : M unit :=
  run_cmd (still_cmd ffmpeg_path src dst cover_time) "ffmpeg still".

(** Lines 165-188. *)
Definition write_metadata (image_path video_path : Path.t)
    (content_id : string) : M unit :=
  exec run_cmd (exif_video_cmd exiftool_path video_path content_id)
         "exiftool video" ;;
  run_cmd (exif_image_cmd exiftool_path image_path content_id)
    "exiftool image".

(** [zipfile.ZipInfo(filename=..., date_time=...)]: the name is cut at
    its first null character, a year before 1980 is refused, and the
    other attributes get the constructor's values. *)
Definition new_ZipInfo (arcname : string) (d : zip_date) : result ZipInfo :=
  if year d <? 1980
  then Raise (ValueError "ZIP does not support timestamps before 1980")
  else
    Ok {| filename := until_nul arcname; date_time := d;
          compress_type := ZIP_STORED; flag_bits := 0;
          create_system := platform_create_system E;
          create_version := DEFAULT_VERSION;
          extract_version := DEFAULT_VERSION;
          external_attr := 0 |}.

(** Lines 199-204: the time stamp of an entry. *)
Definition entry_date_time (s : Sys) (src_path : Path.t) : zip_date :=
  match st_mtime s src_path with
  | Some ts =>
      match fromtimestamp E ts with
      | Some dt =>
          (dt_year dt, dt_month dt, dt_day dt,
           dt_hour dt, dt_minute dt, dt_second dt)
      | None => (1980, 1, 1, 0, 0, 0)
      end
  | None => (1980, 1, 1, 0, 0, 0)
  end.

(** Lines 206-211: the assignments to the new header. *)
Definition entry_info (info : ZipInfo) : ZipInfo :=
  let info := set_compress_type ZIP_STORED info in
  let info := set_flag_bits 0 info in
  let info := set_create_system 0 info in
  let info := set_create_version 0 info in
  let info := set_extract_version 20 info in
  set_external_attr 0 info.

(** [zipfile.ZipFile(out_path, "w")]: the file is created or truncated
    to an archive without entries. *)
Definition zip_open_w (out_path : Path.t) : M unit :=
  fun st =>
    (Ok tt,
     set_sys (set_files (<[out_path := Archive []]> (files (sys st))) (sys st)) st).

(** What [zf.writestr(info, data, compress_type=compress)] makes of the
    header before it writes it: the flag bits are cleared, external
    attributes that are zero become those of a file only its owner may
    read and write, and an entry above the ZIP64 limit raises the two
    versions. *)
Definition written_info (info : ZipInfo) (data : string) (compress : Z)
    : ZipInfo :=
  let zinfo := set_compress_type compress info in
  let zinfo := set_flag_bits 0 zinfo in
  let zinfo :=
    if external_attr zinfo =? 0
    then set_external_attr (Z.shiftl 384 16) zinfo else zinfo in
  let min_version :=
    if ZIP64_LIMIT <? Z.of_nat (String.length data)
    then ZIP64_VERSION else 0 in
  let zinfo :=
    set_extract_version (Z.max min_version (extract_version zinfo)) zinfo in
  set_create_version (Z.max min_version (create_version zinfo)) zinfo.

(** [struct.pack] of the header: the error of the first field that does
    not fit its one or two bytes. *)
Definition header_error (zinfo : ZipInfo) : option exn :=
  if negb (fits 255 (extract_version zinfo))
  then Some (struct_error "ubyte format requires 0 <= number <= 255")
  else if negb (fits 65535 (flag_bits zinfo)
                && fits 65535 (compress_type zinfo)
                && fits 65535 (dostime (date_time zinfo))
                && fits 65535 (dosdate (date_time zinfo))
                && fits 65535 (encoded_length (filename zinfo)))
  then Some (struct_error "ushort format requires 0 <= number <= 65535")
  else None.

(** [zf.writestr(info, data, compress_type=compress)]: one more entry
    at the end of the archive, or the error of a header that cannot be
    written, and then no entry. *)
Definition writestr (out_path : Path.t) (info : ZipInfo) (data : string)
    (compress : Z) : M unit :=
  fun st =>
    let zinfo := written_info info data compress in
    match header_error zinfo with
    | Some e => (Raise e, st)
    | None =>
        let old :=
          match files (sys st) !! out_path with
          | Some (Archive es) => es
          | _ => []
          end in
        (Ok tt,
         set_sys
           (set_files (<[out_path := Archive (old ++ [(zinfo, data)])%list]>
                         (files (sys st))) (sys st)) st)
    end.

(** Lines 195-212: the loop over the two (source, entry name) pairs. *)
Fixpoint pack_entries (out_path : Path.t)
    (items : list (Path.t * string)) : M unit :=
  match items with
  | [] => ret tt
  | (src_path, arcname) :: rest =>
      do date_time <- (fun st => (Ok (entry_date_time (sys st) src_path), st)) ;;
      do info <- (fun st => (new_ZipInfo arcname date_time, st)) ;;
      let info := entry_info info in
      do data <- read_bytes E src_path ;;
      exec writestr out_path info data ZIP_STORED ;;
      pack_entries out_path rest
  end.

(** Lines 191-212. *)
Definition pack_livp (photo_path video_path out_path : Path.t)
    (internal_base : string) : M unit :=
  let photo_name := internal_base ++ ".jpeg" in
  let video_name := internal_base ++ ".mov" in
  exec zip_open_w out_path ;;
  pack_entries out_path [(photo_path, photo_name); (video_path, video_name)].

(** [shutil.rmtree] at the end of the [with] block: every file below the
    temporary directory goes. *)
Definition cleanup (tmpdir : Path.t) (st : State) : State :=
  set_sys
    (set_files (filter (fun kv => ~ tmpdir `prefix_of` kv.1) (files (sys st)))
       (sys st)) st.

(** [with tempfile.TemporaryDirectory(prefix="livp_") as tmpdir: body]:
    the directory is removed on the way out, whether [body] raised or
    not. *)
Definition with_tmpdir {A : Type} (body : Path.t -> M A) : M A :=
  fun st =>
    let tmpdir := mkdtemp E (sys st) in
    let '(r, st') := body tmpdir st in
    (r, cleanup tmpdir st').

(** Lines 230-233: the output path, decided on the state at that
    moment. *)
Definition choose_out_path (src out_dir : Path.t) (index : Z) : M Path.t :=
  let out_name := Path.stem src ++ ".livp" in
  let out_path := Path.join out_dir out_name in
  do taken <- path_exists out_path ;;
  if taken
  then ret (Path.join out_dir (Path.stem src ++ "_" ++ fmt_04d index ++ ".livp"))
  else ret out_path.

(** Lines 236-251: the four stages inside the temporary directory. *)
Definition stages (src out_path tmpdir : Path.t) (content_id internal_base : string)
    (cover_time max_duration : spec_float)
    (fps max_width max_height : Z) : M unit :=
  let tmp_mov := Path.join tmpdir "livephoto.mov" in
  let tmp_jpeg := Path.join tmpdir "livephoto.jpeg" in
  exec build_video src tmp_mov max_duration fps max_width max_height ;;
  exec extract_still tmp_mov tmp_jpeg cover_time ;;
  exec write_metadata tmp_jpeg tmp_mov content_id ;;
  pack_livp tmp_jpeg tmp_mov out_path internal_base.

(** Lines 215-253. *)
Definition build_livp (src out_dir : Path.t) (index : Z)
    (cover_time max_duration : spec_float)
    (fps max_width max_height : Z) : M Path.t :=
  do content_id <- fresh_content_id E ;;
  let internal_base := "IMG_" ++ fmt_04d index ++ ".JPG" in
  do out_path <- choose_out_path src out_dir index ;;
  exec with_tmpdir (fun tmpdir =>
         stages src out_path tmpdir content_id internal_base
           cover_time max_duration fps max_width max_height) ;;
  ret out_path.

(** Lines 316-336: the loop of [main] over the discovered sources, from
    index [idx] on.  The result is the exit status. *)
Fixpoint batch (out_dir : Path.t) (cover_time max_duration : spec_float)
    (fps max_width max_height : Z) (idx : Z) (sources : list Path.t)
    (st : State) : Z * State :=
  match sources with
  | [] => (0, st)
  | src :: rest =>
      let st := print ("Processing: " ++ Path.name src) st in
      match build_livp src out_dir idx cover_time max_duration
              fps max_width max_height st with
      | (Ok out_path, st) =>
          batch out_dir cover_time max_duration fps max_width max_height
            (idx + 1) rest (print ("Output: " ++ Path.name out_path) st)
      | (Raise e, st) =>
          (1, print ("Failed: " ++ Path.name src ++ " -> " ++ str_exn e) st)
      end
  end.

(** Lines 311-336: [main] from the point where the arguments are parsed,
    the tools located and the sorted list [sources] of video files found
    under the input folder.  The result is the exit status. *)
Definition main (out_dir : Path.t) (cover_time max_duration : spec_float)
    (fps max_width max_height : Z) (sources : list Path.t)
    (st : State) : Z * State :=
  match sources with
  | [] => (1, print "No video files found in input folder." st)
  | _ :: _ =>
      batch out_dir cover_time max_duration fps max_width max_height 1 sources
        (print ("Found " ++ str_int (Z.of_nat (length sources))
                ++ " video file(s).") st)
  end.

End Program.

(** ** Reading commands and texts back *)

Module Read.

(** The arguments of the transcoder, read the way it reads them: a
    switch stands alone, any other dash argument takes the next argument
    as its value, the rest are files. *)
Inductive arg : Type :=
| Switch (name : string)
| Opt (name value : string)
| File (name : string).

Definition is_switch (s : string) : bool :=
  String.eqb s "-y" || String.eqb s "-shortest".

Definition dashed (s : string) : bool :=
  match s with
  | String c _ => Ascii.eqb c "-"
  | EmptyString => false
  end.

Fixpoint parse_args (l : list string) : list arg :=
  match l with
  | [] => []
  | x :: tl =>
      if is_switch x then Switch x :: parse_args tl
      else
        match tl with
        | [] => [File x]
        | v :: rest =>
            if dashed x then Opt x v :: parse_args rest
            else File x :: parse_args tl
        end
  end.

(** The values given to option [name], in order. *)
Fixpoint values (name : string) (l : list arg) : list string :=
  match l with
  | [] => []
  | Opt n v :: r => if String.eqb n name then v :: values name r else values name r
  | _ :: r => values name r
  end.

(** The options of a command: everything after the program. *)
Definition options (cmd : list string) : list arg := parse_args (List.tl cmd).

(** The text after the first ["."]. *)
Fixpoint after_dot (s : string) : option string :=
  match s with
  | EmptyString => None
  | String c r => if Ascii.eqb c "." then Some r else after_dot r
  end.

(** A number text with exactly three decimal places: one point, three
    digits after it and nothing else. *)
Definition three_decimals (s : string) : bool :=
  match after_dot s with
  | Some f => (String.length f =? 3)%nat && all_chars is_digit f
  | None => false
  end.

(** The steps of a filter chain: the pieces between the commas that are
    not inside parentheses.  [steps_from depth s] gives the piece [s]
    starts in and the pieces after it. *)
Fixpoint steps_from (depth : nat) (s : string) : string * list string :=
  match s with
  | EmptyString => ("", [])
  | String c r =>
      if Ascii.eqb c "," && Nat.eqb depth 0 then
        let '(p, ps) := steps_from 0 r in ("", p :: ps)
      else
        let depth' :=
          if Ascii.eqb c "(" then S depth
          else if Ascii.eqb c ")" then Nat.pred depth else depth in
        let '(p, ps) := steps_from depth' r in (String c p, ps)
  end.

Definition steps (s : string) : list string :=
  let '(p, ps) := steps_from 0 s in p :: ps.



End Read.

Import Read.

(** ** Vocabulary of the statements *)








Definition no_dot (c : ascii) : bool := negb (Ascii.eqb c ".").

(** The state after one call of [subprocess.run]. *)
Definition after_run (st : State) (cmd : list string) (s : Sys) : State :=
  {| sys := s; drawn := drawn st; trace := (trace st ++ [cmd])%list;
     printed := printed st |}.

Definition failure_text (label stdout stderr : string) : string :=
  label ++ " failed: " ++ strip (text_or stderr (text_or stdout "")).

(** ** A world to run the program in *)

Module Demo.

Definition tmpdir : Path.t := ["tmp"; "livp_k3x0"].
Definition tmp_mov : Path.t := Path.join tmpdir "livephoto.mov".
Definition tmp_jpeg : Path.t := Path.join tmpdir "livephoto.jpeg".

Definition mentions (a : string) (cmd : list string) : bool :=
  existsb (String.eqb a) cmd.

(** The tools of this world: the prober finds one audio stream in
    [in/a.mp4] and none elsewhere; the transcoder rejects [in/bad.mp4]
    and otherwise writes its output file; the metadata editor cannot
    write [in/locked.jpeg], always fails when called as
    [exiftool_broken] and otherwise succeeds; nothing else can be
    started. *)
Definition tools (cmd : list string) (s : Sys) : completion * Sys :=
  let prog := List.hd "" cmd in
  let target := List.last cmd "" in
  if String.eqb prog "ffprobe" then
    (Exited 0 (if String.eqb target "in/a.mp4" then "0" ++ nl else "") "", s)
  else if String.eqb prog "ffmpeg" then
    if mentions "in/bad.mp4" cmd then
      (Exited 1 ""
         ("in/bad.mp4: Invalid data found when processing input" ++ nl), s)
    else if String.eqb target (Path.str tmp_mov) then
      (Exited 0 "" "", set_files (<[tmp_mov := Blob "mov"]> (files s)) s)
    else if String.eqb target (Path.str tmp_jpeg) then
      (Exited 0 "" "", set_files (<[tmp_jpeg := Blob "jpeg"]> (files s)) s)
    else (Exited 0 "" "", s)
  else if String.eqb prog "exiftool" then
    if String.eqb target "in/locked.jpeg" then
      (Exited 1 "" ("Error: Permission denied - in/locked.jpeg" ++ nl), s)
    else (Exited 0 ("    1 image files updated" ++ nl) "", s)
  else if String.eqb prog "exiftool_broken" then
    (Exited 1 "" ("Error: File format error" ++ nl), s)
  else (NotStarted ("No such file or directory: " ++ prog), s).

Definition env : Env :=
  {| subprocess_run := tools;
     uuid4_str := fun n =>
       "7d3f9a2c-51be-4c0d-9e6a-0b1c2d3e4f5" ++ str_N (N.of_nat n mod 10);
     mkdtemp := fun _ => tmpdir;
     fromtimestamp := fun _ =>
       Some (mk_datetime 2024 5 6 7 8 9 123456);
     platform_create_system := 3;
     archive_bytes := fun _ => "PK" |}.

(** A machine on which none of the tools is installed: no command can
    be started. *)
Definition bare : Env :=
  {| subprocess_run := fun cmd s =>
       (NotStarted ("[Errno 2] No such file or directory: '"
                    ++ List.hd "" cmd ++ "'"), s);
     uuid4_str := uuid4_str env;
     mkdtemp := mkdtemp env;
     fromtimestamp := fromtimestamp env;
     platform_create_system := platform_create_system env;
     archive_bytes := archive_bytes env |}.

Definition mtimes (p : Path.t) : option spec_float :=
  if bool_decide (p = tmp_jpeg) then None
  else Some (S754_finite false 1714979289 0).

(** An output directory that already holds [video.livp] and
    [video_0003.livp]. *)
Definition crowded : State :=
  {| sys := {| files := {[ ["out"; "video.livp"] := Blob "old";
                           ["out"; "video_0003.livp"] := Blob "older" ]};
               st_mtime := mtimes |};
     drawn := 0; trace := []; printed := [] |}.

(** An empty output directory. *)
Definition empty : State :=
  {| sys := {| files := ∅; st_mtime := mtimes |};
     drawn := 0; trace := []; printed := [] |}.

(** The two temporary files, ready to be packed. *)
Definition ready : State :=
  {| sys := {| files := {[ tmp_jpeg := Blob "jpeg"; tmp_mov := Blob "mov" ]};
               st_mtime := mtimes |};
     drawn := 1; trace := []; printed := [] |}.

Definition video_mp4 : Path.t := ["in"; "video.mp4"].
Definition out : Path.t := ["out"].




End Demo.

(** What [read_bytes] gives at a path of a file map. *)
Definition bytes_at (E : Env) (f : gmap Path.t content) (p : Path.t)
  : option string :=
  match f !! p with
  | Some (Blob d) => Some d
  | Some (Archive es) => Some (archive_bytes E es)
  | None => None
  end.

(** A state whose only difference is the file map. *)
Definition with_files (f : gmap Path.t content) (st : State) : State :=
  set_sys (set_files f (sys st)) st.

(** The header fields the program sets and finds again in the entry,
    and the two versions, which stay for an entry of [size] bytes that
    is not above the ZIP64 limit. *)
Definition forced (i : ZipInfo) : Prop :=
  compress_type i = ZIP_STORED /\ flag_bits i = 0 /\ create_system i = 0.

Definition versions_kept (i : ZipInfo) (data : string) : Prop :=
  Z.of_nat (String.length data) <= ZIP64_LIMIT ->
  create_version i = 0 /\ extract_version i = 20.

(** The error of [read_bytes] at a path where no file is. *)
Definition missing (p : Path.t) : exn :=
  OSError ("[Errno 2] No such file or directory: " ++ repr (Path.str p)).

(** What packing one entry comes to, with the time stamps of [s] and the
    files [f]: the header and the bytes that go into the archive, or the
    error that ends pack_livp. *)
Definition entry_outcome (E : Env) (s : Sys) (f : gmap Path.t content)
    (src_path : Path.t) (arcname : string) : (ZipInfo * string) + exn :=
  match new_ZipInfo E arcname (entry_date_time E s src_path) with
  | Raise e => inr e
  | Ok info =>
      match bytes_at E f src_path with
      | None => inr (missing src_path)
      | Some data =>
          let zinfo := written_info (entry_info info) data ZIP_STORED in
          match header_error zinfo with
          | Some e => inr e
          | None => inl (zinfo, data)
          end
      end
  end.

(** A calendar date and time of day as [datetime] objects hold them, and
    the years a ZIP header has room for. *)
Definition valid_datetime (dt : datetime) : Prop :=
  1 <= dt_month dt <= 12 /\ 1 <= dt_day dt <= 31
  /\ 0 <= dt_hour dt <= 23 /\ 0 <= dt_minute dt <= 59
  /\ 0 <= dt_second dt <= 59.

(** The modification time of [p], when it can be read, is a valid date
    of the years 1980 to 2107. *)
Definition zip_time_range (E : Env) (s : Sys) (p : Path.t) : Prop :=
  forall ts dt,
    st_mtime s p = Some ts -> fromtimestamp E ts = Some dt ->
    valid_datetime dt /\ 1980 <= dt_year dt <= 2107.

(** A name zipfile keeps as it is: without null character and, once
    encoded, at most 65535 bytes long. *)
Definition not_nul (c : ascii) : bool := negb (Ascii.eqb c "000").

Definition zip_name (n : string) : Prop :=
  all_chars not_nul n = true /\ encoded_length n <= 65535.

(** The name and the time stamp of each entry of an archive. *)
Definition stamps (es : list (ZipInfo * string)) : list (string * zip_date) :=
  map (fun e => (filename e.1, date_time e.1)) es.

Section OneFile.

Context (E : Env).
Context (ffmpeg_path ffprobe_path exiftool_path : string).
Context (src out_dir : Path.t) (index : Z).
Context (cover_time max_duration : spec_float).
Context (fps max_width max_height : Z).

(** The name taken from the source, and the name with the index. *)
Definition plain_path : Path.t := Path.join out_dir (Path.stem src ++ ".livp").

Definition indexed_path : Path.t :=
  Path.join out_dir (Path.stem src ++ "_" ++ fmt_04d index ++ ".livp").

(** The output path as a function of the world build_livp starts in. *)
Definition chosen_path (s : Sys) : Path.t :=
  if bool_decide (is_Some (files s !! plain_path))
  then indexed_path else plain_path.

(** The state once the identifier is drawn. *)
Definition drew (st : State) : State :=
  {| sys := sys st; drawn := S (drawn st); trace := trace st;
     printed := printed st |}.

(** The identifier build_livp draws in state [st]. *)
Definition content_id_at (st : State) : string :=
  upper (uuid4_str E (drawn st)).

Definition internal_base_of : string := "IMG_" ++ fmt_04d index ++ ".JPG".

(** The three stages that run tools, as lines 239-250 chain them. *)
Definition tool_stages (tmpdir : Path.t) (content_id : string) : M unit :=
  let tmp_mov := Path.join tmpdir "livephoto.mov" in
  let tmp_jpeg := Path.join tmpdir "livephoto.jpeg" in
  exec build_video E ffmpeg_path ffprobe_path src tmp_mov max_duration
         fps max_width max_height ;;
  exec extract_still E ffmpeg_path tmp_mov tmp_jpeg cover_time ;;
  write_metadata E exiftool_path tmp_jpeg tmp_mov content_id.

(** The commands of a run in which every tool stage is reached. *)
Definition pipeline_cmds (tmpdir : Path.t) (content_id : string)
    (audio : bool) : list (list string) :=
  let tmp_mov := Path.join tmpdir "livephoto.mov" in
  let tmp_jpeg := Path.join tmpdir "livephoto.jpeg" in
  [ probe_cmd ffprobe_path src;
    encoder_cmd ffmpeg_path src tmp_mov max_duration
      fps max_width max_height audio;
    still_cmd ffmpeg_path tmp_mov tmp_jpeg cover_time;
    exif_video_cmd exiftool_path tmp_mov content_id;
    exif_image_cmd exiftool_path tmp_jpeg content_id ].

End OneFile.

Ltac trace_facts :=
  split; [reflexivity|]; split; [reflexivity|]; split; [reflexivity|]; split.


Definition processing (src : Path.t) : string := "Processing: " ++ Path.name src.

Definition failed (src : Path.t) (e : exn) : string :=
  "Failed: " ++ Path.name src ++ " -> " ++ str_exn e.

Definition found (sources : list Path.t) : string :=
  "Found " ++ str_int (Z.of_nat (length sources)) ++ " video file(s).".

#[local] Abbreviation demo_build src idx st :=
  (build_livp Demo.env "ffmpeg" "ffprobe" "exiftool" src Demo.out idx
     float_0_5 float_2_9 30 3840 2160 st).

Definition demo_sources : list Path.t :=
  [ ["in"; "a.mp4"]; ["in"; "bad.mp4"]; ["in"; "c.mp4"] ].

#[local] Abbreviation demo_main sources st :=
  (main Demo.env "ffmpeg" "ffprobe" "exiftool" Demo.out
     float_0_5 float_2_9 30 3840 2160 sources st).

(** ** More vocabulary: texts read back, names *)

Definition head_char (s : string) : option ascii :=
  match s with
  | EmptyString => None
  | String c _ => Some c
  end.

Fixpoint last_char (s : string) : option ascii :=
  match s with
  | EmptyString => None
  | String c EmptyString => Some c
  | String _ r => last_char r
  end.

(** A text that neither starts nor ends with white space. *)
Definition trimmed (s : string) : Prop :=
  (forall c, head_char s = Some c -> is_space c = false)
  /\ (forall c, last_char s = Some c -> is_space c = false).

(** The number a text of decimal digits stands for, leading zeros
    allowed, and the integer a text with an optional minus sign stands
    for: the inverse of the [d] formats. *)
Definition N_of_text (s : string) : option N :=
  option_map N.of_uint (NilZero.uint_of_string s).

Definition int_of_text (s : string) : option Z :=
  match s with
  | String "-" r => option_map (fun n => (- Z.of_N n)%Z) (N_of_text r)
  | _ => option_map Z.of_N (N_of_text s)
  end.




(** The lines a batch prints for sources it has processed with
    success, the first of them under index [idx]: for each source the
    line that announces it, then the line that names its output, which
    is the stem of the source with [.livp], or with the index between
    the two. *)
Fixpoint report_ok (idx : Z) (sources : list Path.t) (lines : list string)
    : Prop :=
  match sources, lines with
  | [], [] => True
  | src :: rest, l1 :: l2 :: more =>
      l1 = processing src
      /\ (l2 = "Output: " ++ Path.stem src ++ ".livp"
          \/ l2 = "Output: " ++ Path.stem src ++ "_" ++ fmt_04d idx ++ ".livp")
      /\ report_ok (idx + 1) rest more
  | _, _ => False
  end.

(** ** Reading the arguments *)

(** The exceptions of lines 267-293 are a ValueError or an
    OverflowError. *)
Definition arg_exn : Type := exn.

(** [int(x)] on a float: the integer part, toward zero. *)
Definition int_of_float (x : spec_float) : Z + arg_exn :=
  match x with
  | S754_zero _ => inl 0
  | S754_infinity _ =>
      inr (OverflowError "cannot convert float infinity to integer")
  | S754_nan => inr (ValueError "cannot convert float NaN to integer")
  | S754_finite s m e =>
      let a := Z.shiftl (Zpos m) e in inl (if s then - a else a)
  end.

(** A finite float as a fraction [float_num / float_den] of integers. *)
Definition float_num (x : spec_float) : Z :=
  match x with
  | S754_finite s m e => (if s then -1 else 1) * (Zpos m * 2 ^ Z.max e 0)
  | _ => 0
  end.

Definition float_den (x : spec_float) : Z :=
  match x with
  | S754_finite _ _ e => 2 ^ Z.max (- e) 0
  | _ => 1
  end.

(** The namespace [parser.parse_args()] returns: every option is a text
    ([type=str]), the defaults included. *)
Module Args.

Record t : Type := mk {
  input : string;
  output : string;
  cover_time : string;
  max_duration : string;
  fps : string;
  max_width : string;
  max_height : string
}.

End Args.

(** The five values lines 286-290 compute. *)
Record settings : Type := mk_settings {
  the_cover_time : spec_float;
  the_max_duration : spec_float;
  the_fps : Z;
  the_max_width : Z;
  the_max_height : Z
}.

(** How the argument phase of [main] ends: it goes on with the values
    read, it returns an exit status, or an exception leaves [main]. *)
Inductive arguments_outcome : Type :=
| Proceed (s : settings)
| Returned (code : Z)
| Escaped (e : arg_exn).

Section Arguments.

(** [float(text)]: the float a text stands for, [None] when it raises
    [ValueError]. *)
Context (float : string -> option spec_float).

(** Lines 267-274. *)
Definition _parse_float (value : option string) (default : spec_float)
    (label : string) : spec_float + arg_exn :=
  let text := match value with None => "" | Some v => strip v end in
  if negb (truthy text) then inl default
  else
    match float text with
    | Some x => inl x
    | None => inr (ValueError (label ++ " must be a number."))
    end.

(** Lines 276-283. *)
Definition _parse_int (value : option string) (default : Z)
    (label : string) : Z + arg_exn :=
  let text := match value with None => "" | Some v => strip v end in
  if negb (truthy text) then inl default
  else
    match float text with
    | Some x =>
        match int_of_float x with
        | inl z => inl z
        | inr (ValueError _) => inr (ValueError (label ++ " must be a number."))
        | inr e => inr e
        end
    | None => inr (ValueError (label ++ " must be a number."))
    end.

(** Lines 286-290. *)
Definition read_arguments (args : Args.t) : settings + arg_exn :=
  match _parse_float (Some (Args.cover_time args)) float_0_5 "--cover-time" with
  | inr e => inr e
  | inl cover_time =>
  match _parse_float (Some (Args.max_duration args)) float_2_9
          "--max-duration" with
  | inr e => inr e
  | inl max_duration =>
  match _parse_int (Some (Args.fps args)) 30 "--fps" with
  | inr e => inr e
  | inl fps =>
  match _parse_int (Some (Args.max_width args)) 3840 "--max-width" with
  | inr e => inr e
  | inl max_width =>
  match _parse_int (Some (Args.max_height args)) 2160 "--max-height" with
  | inr e => inr e
  | inl max_height =>
      inl (mk_settings cover_time max_duration fps max_width max_height)
  end end end end end.

(** Lines 285-293. *)
Definition arguments_phase (args : Args.t) (st : State)
    : arguments_outcome * State :=
  match read_arguments args with
  | inl s => (Proceed s, st)
  | inr (ValueError msg) => (Returned 2, print ("Argument error: " ++ msg) st)
  | inr e => (Escaped e, st)
  end.

(** A text the program takes for an argument: a blank one, or one that
    [float] reads, as a finite float where an integer is wanted. *)
Definition accepts (is_int : bool) (text : string) : bool :=
  negb (truthy (strip text))
  || match float (strip text) with
     | Some x => negb is_int || is_finite x
     | None => false
     end.

End Arguments.

(** The arguments in the order they are read: the option, its text, and
    whether an integer is wanted. *)
Definition argument_table (args : Args.t) : list (string * string * bool) :=
  [ ("--cover-time", Args.cover_time args, false);
    ("--max-duration", Args.max_duration args, false);
    ("--fps", Args.fps args, true);
    ("--max-width", Args.max_width args, true);
    ("--max-height", Args.max_height args, true) ].

Definition must_be_a_number (label : string) : string :=
  label ++ " must be a number.".

(** A few float literals: 29.97 is 1054475631502295 * 2^-45. *)
Definition demo_float (text : string) : option spec_float :=
  if String.eqb text "0.5" then Some float_0_5
  else if String.eqb text "2.9" then Some float_2_9
  else if String.eqb text "30" then Some (S754_finite false 15 1)
  else if String.eqb text "1920" then Some (S754_finite false 15 7)
  else if String.eqb text "1080" then Some (S754_finite false 135 3)
  else if String.eqb text "29.97"
  then Some (S754_finite false 1054475631502295 (-45))
  else if String.eqb text "-0.75" then Some (S754_finite true 3 (-2))
  else if String.eqb text "1e4" then Some (S754_finite false 625 4)
  else if String.eqb text "inf" then Some (S754_infinity false)
  else if String.eqb text "nan" then Some S754_nan
  else None.

(** ** Finding the sources *)

Module Discovery.

(** Line 14. *)
Definition VIDEO_EXTS : gset string :=
  {[ ".mp4"; ".mov"; ".m4v"; ".mkv"; ".webm"; ".avi" ]}.

(** [p.suffix]: the final component from its last dot on; a leading dot
    or a trailing dot does not start a suffix. *)
Definition suffix (p : Path.t) : string :=
  let n := Path.name p in
  match Path.rfind_dot n 0 None with
  | Some i =>
      if ((0 <? i) && (i <? String.length n - 1))%nat
      then String.substring i (String.length n - i) n else ""
  | None => ""
  end.

(** The capital letters among the code points below 256. *)
Definition is_upper (c : ascii) : bool :=
  let n := N_of_ascii c in
  ((65 <=? n) && (n <=? 90) || (192 <=? n) && (n <=? 214)
   || (216 <=? n) && (n <=? 222))%N.

Definition lower_char (c : ascii) : ascii :=
  if is_upper c then ascii_of_N (N_of_ascii c + 32) else c.

(** [s.lower()]. *)
Fixpoint lower (s : string) : string :=
  match s with
  | EmptyString => ""
  | String c r => String (lower_char c) (lower r)
  end.

(** The order of paths: component by component, a proper prefix first;
    components compare as texts, by code points. *)
Fixpoint path_compare (p q : Path.t) : comparison :=
  match p, q with
  | [], [] => Eq
  | [], _ :: _ => Lt
  | _ :: _, [] => Gt
  | a :: p', b :: q' =>
      match String.compare a b with
      | Eq => path_compare p' q'
      | c => c
      end
  end.

(** [p < q]. *)
Definition path_ltb (p q : Path.t) : bool :=
  match path_compare p q with Lt => true | _ => false end.

(** [p <= q]. *)
Definition path_le (p q : Path.t) : Prop := path_compare p q <> Gt.

(** [sorted(paths)]: a stable sort that asks for [<] only. *)
Fixpoint insert (x : Path.t) (l : list Path.t) : list Path.t :=
  match l with
  | [] => [x]
  | y :: r => if path_ltb x y then x :: y :: r else y :: insert x r
  end.

Definition sorted (l : list Path.t) : list Path.t :=
  fold_left (fun acc x => insert x acc) l [].

(** [path.is_file()]: the file system is the map of its regular
    files. *)
Definition is_file (s : Sys) (path : Path.t) : bool :=
  bool_decide (is_Some (files s !! path)).

(** [path.suffix.lower() in VIDEO_EXTS]. *)
Definition is_video (path : Path.t) : bool :=
  bool_decide (lower (suffix path) ∈ VIDEO_EXTS).

(** Lines 306-310, for the entries [listing] that the walk of the input
    folder yields, in whatever order it yields them. *)
Definition select (listing : list Path.t) (s : Sys) : list Path.t :=
  List.filter (fun path => is_file s path && is_video path) (sorted listing).

(** [input_dir.rglob("*")], without the entries that are directories
    (which line 309 drops): the files below the folder. *)
Definition rglob (input_dir : Path.t) (s : Sys) : list Path.t :=
  List.filter (fun path => bool_decide (input_dir `prefix_of` path
                                        /\ input_dir <> path))
    (map fst (map_to_list (files s))).

Definition discover (input_dir : Path.t) (s : Sys) : list Path.t :=
  select (rglob input_dir s) s.

End Discovery.

(** An input folder: videos in both letter cases, one in a folder
    below, a hidden file, a text file; a video next to the folder. *)
Definition folder : Sys :=
  {| files := list_to_map
       [ (["in"; "b.MP4"], Blob "b"); (["in"; "a"; "z.mov"], Blob "z");
         (["in"; ".mp4"], Blob "h"); (["in"; "B.mkv"], Blob "k");
         (["in"; "notes.txt"], Blob "n"); (["in"; "a.b.webm"], Blob "w");
         (["in2"; "c.mp4"], Blob "c") ];
     st_mtime := fun _ => None |}.

(** * Properties *)

(** ** Formats on examples *)

Example str_int_neg : str_int (-42) = "-42".
Proof. reflexivity. Qed.

Example fmt_04d_3 : fmt_04d 3 = "0003".
Proof. reflexivity. Qed.

Example fmt_04d_neg : fmt_04d (-3) = "-003".
Proof. reflexivity. Qed.

Example fmt_04d_wide : fmt_04d 12345 = "12345".
Proof. reflexivity. Qed.

Example fmt_3f_2_9 : fmt_3f float_2_9 = "2.900".
Proof. vm_compute. reflexivity. Qed.

Example fmt_3f_half : fmt_3f float_0_5 = "0.500".
Proof. vm_compute. reflexivity. Qed.

(** 0.0625 and 0.1875 lie exactly between two thousandths *)
Example fmt_3f_tie_down : fmt_3f (S754_finite false 1 (-4)) = "0.062".
Proof. vm_compute. reflexivity. Qed.

Example fmt_3f_tie_up : fmt_3f (S754_finite true 3 (-4)) = "-0.188".
Proof. vm_compute. reflexivity. Qed.

Example fmt_3f_inf : fmt_3f (S754_infinity false) = "inf".
Proof. reflexivity. Qed.

Example strip_ex : strip (String "010" " 0 1 " ++ String "009" "") = "0 1".
Proof. vm_compute. reflexivity. Qed.

Example stem_video : Path.stem ["in"; "video.mp4"] = "video".
Proof. reflexivity. Qed.

Example stem_two_dots : Path.stem ["clip.final.mov"] = "clip.final".
Proof. reflexivity. Qed.

Example stem_hidden : Path.stem [".hidden"] = ".hidden".
Proof. reflexivity. Qed.

Example str_path : Path.str [""; "tmp"; "livp_x"; "livephoto.mov"] = "/tmp/livp_x/livephoto.mov".
Proof. reflexivity. Qed.

Example video_filter_default :
  video_filter 3840 2160 30 =
  "scale=min(3840,iw):min(2160,ih):force_original_aspect_ratio=decrease,scale=trunc(iw/2)*2:trunc(ih/2)*2,fps=30".
Proof. reflexivity. Qed.

Example steps_default :
  steps (video_filter 3840 2160 30) =
  [ "scale=min(3840,iw):min(2160,ih):force_original_aspect_ratio=decrease";
    "scale=trunc(iw/2)*2:trunc(ih/2)*2";
    "fps=30" ].
Proof. reflexivity. Qed.

Example options_silent :
  values "-map" (options (encoder_cmd "ffmpeg" ["a.mp4"] ["t"; "b.mov"] float_2_9 30 3840 2160 false))
  = ["0:v:0"; "1:a:0"].
Proof. vm_compute. reflexivity. Qed.

Example three_decimals_2_9 : three_decimals (fmt_3f float_2_9) = true.
Proof. vm_compute. reflexivity. Qed.

Example three_decimals_inf : three_decimals (fmt_3f (S754_infinity false)) = false.
Proof. reflexivity. Qed.

(** ** Facts about texts *)

Section TextFacts.

Lemma append_assoc (a b c : string) : (a ++ b) ++ c = a ++ (b ++ c).
Proof. induction a as [|x a IH]; simpl; [reflexivity | now rewrite IH]. Qed.

Lemma all_chars_app (p : ascii -> bool) (a b : string) :
  all_chars p (a ++ b) = all_chars p a && all_chars p b.
Proof.
  induction a as [|x a IH]; simpl; [reflexivity|].
  rewrite IH. now rewrite andb_assoc.
Qed.

Lemma all_chars_impl (p q : ascii -> bool) (s : string) :
  (forall c, p c = true -> q c = true) ->
  all_chars p s = true -> all_chars q s = true.
Proof.
  intros Hpq. induction s as [|x s IH]; simpl; [reflexivity|].
  intros [Hx Hs]%andb_prop. rewrite (Hpq _ Hx). simpl. now apply IH.
Qed.

Lemma uint_digits (d : Decimal.uint) :
  all_chars is_digit (NilEmpty.string_of_uint d) = true.
Proof. induction d; simpl; auto. Qed.

Lemma str_N_digits (n : N) : all_chars is_digit (str_N n) = true.
Proof.
  unfold str_N, NilZero.string_of_uint.
  destruct (N.to_uint n) eqn:Hd; try reflexivity;
    rewrite <- Hd; apply uint_digits.
Qed.



Lemma digit_is_digit (n : N) : is_digit (digit n) = true.
Proof.
  unfold digit.
  assert (H : (n mod 10 < 10)%N) by (apply N.mod_lt; discriminate).
  remember (n mod 10)%N as k eqn:Hk. clear Hk.
  assert (Hcases : (k = 0 \/ k = 1 \/ k = 2 \/ k = 3 \/ k = 4 \/ k = 5
                   \/ k = 6 \/ k = 7 \/ k = 8 \/ k = 9)%N) by lia.
  repeat (destruct Hcases as [-> | Hcases]; [reflexivity|]).
  subst k. reflexivity.
Qed.

Lemma three_digits_ok (n : N) :
  String.length (three_digits n) = 3%nat
  /\ all_chars is_digit (three_digits n) = true.
Proof.
  split; [reflexivity|].
  unfold three_digits. simpl. now rewrite !digit_is_digit.
Qed.

End TextFacts.

(** ** The filter chain *)













(** ** The encoder command *)

Lemma after_dot_app (p x : string) :
  all_chars no_dot p = true -> after_dot (p ++ "." ++ x) = Some x.
Proof.
  induction p as [|c p IH]; simpl; [reflexivity|].
  intros [Hc Hp]%andb_prop. unfold no_dot in Hc.
  apply negb_true_iff in Hc. rewrite Hc. now apply IH.
Qed.

Lemma is_digit_no_dot (c : ascii) : is_digit c = true -> no_dot c = true.
Proof.
  destruct c as [[] [] [] [] [] [] [] []]; intros H;
    solve [reflexivity | discriminate H].
Qed.

Lemma fixed3_three_decimals (s : bool) (t : N) :
  three_decimals (fixed3 s t) = true.
Proof.
  unfold three_decimals, fixed3.
  rewrite <- append_assoc, after_dot_app.
  - destruct (three_digits_ok (t mod 1000)) as [Hlen Hdig].
    now rewrite Hlen, Hdig.
  - rewrite all_chars_app. apply andb_true_intro. split.
    + now destruct s.
    + apply all_chars_impl with (p := is_digit);
        [apply is_digit_no_dot | apply str_N_digits].
Qed.

Lemma fmt_3f_three_decimals (x : spec_float) :
  three_decimals (fmt_3f x) = is_finite x.
Proof.
  destruct x as [s|s| |s m e]; simpl.
  - apply fixed3_three_decimals.
  - now destruct s.
  - reflexivity.
  - apply fixed3_three_decimals.
Qed.

(** ** The duration text read back *)

Lemma N_to_uint_nonnil (n : N) : N.to_uint n <> Decimal.Nil.
Proof.
  destruct n as [|p]; [discriminate|].
  apply DecimalPos.Unsigned.to_uint_nonnil.
Qed.

Lemma N_of_text_str_N (n : N) : N_of_text (str_N n) = Some n.
Proof.
  unfold N_of_text, str_N.
  rewrite NilZero.usu by apply N_to_uint_nonnil.
  simpl. now rewrite DecimalN.Unsigned.of_to.
Qed.

Lemma str_N_nonempty (n : N) : str_N n <> "".
Proof.
  intros H. pose proof (N_of_text_str_N n) as Hn. rewrite H in Hn.
  discriminate Hn.
Qed.











(** ** The audio probe *)

Lemma all_chars_rev_string (p : ascii -> bool) (s acc : string) :
  all_chars p (rev_string s acc) = all_chars p s && all_chars p acc.
Proof.
  revert acc. induction s as [|c s IH]; intros acc; simpl; [reflexivity|].
  rewrite IH. simpl. rewrite !andb_assoc. f_equal. apply andb_comm.
Qed.

Lemma truthy_rev_string_acc (s acc : string) :
  truthy (rev_string s acc) = truthy s || truthy acc.
Proof.
  revert acc. induction s as [|c s IH]; intros acc; simpl; [reflexivity|].
  rewrite IH. simpl. apply orb_true_r.
Qed.

Lemma truthy_rev_string (s : string) : truthy (rev_string s "") = truthy s.
Proof. rewrite truthy_rev_string_acc. apply orb_false_r. Qed.

Lemma truthy_lstrip (s : string) :
  truthy (lstrip s) = negb (all_chars is_space s).
Proof.
  induction s as [|c s IH]; simpl; [reflexivity|].
  destruct (is_space c); simpl; [apply IH | reflexivity].
Qed.

Lemma all_space_lstrip (s : string) :
  all_chars is_space (lstrip s) = all_chars is_space s.
Proof.
  induction s as [|c s IH]; simpl; [reflexivity|].
  destruct (is_space c) eqn:Hc; simpl; [apply IH | now rewrite Hc].
Qed.

(** A text is true after [strip] exactly when it holds a character that
    is not white space. *)
Lemma truthy_strip (s : string) :
  truthy (strip s) = negb (all_chars is_space s).
Proof.
  unfold strip.
  rewrite truthy_rev_string, truthy_lstrip, all_chars_rev_string.
  simpl. rewrite andb_true_r. now rewrite all_space_lstrip.
Qed.

Lemma has_audio_exited (E : Env) (ffprobe_path : string)
    (src : Path.t) (st : State)
    (returncode : Z) (stdout stderr : string) (s : Sys) :
  subprocess_run E (probe_cmd ffprobe_path src) (sys st)
    = (Exited returncode stdout stderr, s) ->
  has_audio E ffprobe_path src st
    = (Ok ((returncode =? 0) && truthy (strip stdout)),
       after_run st (probe_cmd ffprobe_path src) s).
Proof.
  intros Hrun. unfold has_audio, run. rewrite Hrun. unfold text_or, after_run.
  destruct (returncode =? 0) eqn:Hrc; simpl; [|reflexivity].
  destruct stdout; reflexivity.
Qed.

(** When the probe cannot be started at all, [subprocess.run] raises and
    has_audio lets the exception through. *)
Lemma has_audio_not_started (E : Env) (ffprobe_path : string)
    (src : Path.t) (st : State) (msg : string) (s : Sys) :
  subprocess_run E (probe_cmd ffprobe_path src) (sys st) = (NotStarted msg, s) ->
  has_audio E ffprobe_path src st
    = (Raise (OSError msg), after_run st (probe_cmd ffprobe_path src) s).
Proof. intros Hrun. unfold has_audio, run. now rewrite Hrun. Qed.

(** C6, amended: for every path, whenever the probe subprocess can be
    started and runs to an exit status, has_audio returns a boolean and
    raises nothing: false when the status is not zero, and otherwise
    true exactly when the standard output, stripped, is not empty, that
    is when it holds a character that is not white space (a stream
    index).  When the probe cannot be started at all, the exception of
    [subprocess.run] is not caught and leaves has_audio.  Either way the
    only trace is the probe command. *)
Theorem has_audio_by_completion (E : Env) (ffprobe_path : string)
    (src : Path.t) (st : State) :
  (forall (returncode : Z) (stdout stderr : string) (s : Sys),
     subprocess_run E (probe_cmd ffprobe_path src) (sys st)
       = (Exited returncode stdout stderr, s) ->
     has_audio E ffprobe_path src st
       = (Ok ((returncode =? 0) && truthy (strip stdout)),
          after_run st (probe_cmd ffprobe_path src) s)
     /\ (returncode <> 0 ->
         (has_audio E ffprobe_path src st).1 = Ok false)
     /\ (returncode = 0 ->
         (has_audio E ffprobe_path src st).1
           = Ok (negb (all_chars is_space stdout))))
  /\ (forall (msg : string) (s : Sys),
        subprocess_run E (probe_cmd ffprobe_path src) (sys st)
          = (NotStarted msg, s) ->
        has_audio E ffprobe_path src st
          = (Raise (OSError msg),
             after_run st (probe_cmd ffprobe_path src) s)).
Proof.
  split.
  - intros returncode stdout stderr s Hrun.
    pose proof (has_audio_exited _ _ _ _ _ _ _ _ Hrun) as Hres.
    split; [exact Hres|]. rewrite Hres. simpl. split.
    + intros Hne. apply Z.eqb_neq in Hne. now rewrite Hne.
    + intros ->. simpl. now rewrite truthy_strip.
  - intros msg s Hrun. now apply has_audio_not_started.
Qed.

(** ** The command runner and the metadata writes *)

Lemma run_cmd_exited (E : Env) (cmd : list string) (label : string)
    (st : State) (returncode : Z) (stdout stderr : string) (s : Sys) :
  subprocess_run E cmd (sys st) = (Exited returncode stdout stderr, s) ->
  run_cmd E cmd label st
  = (if returncode =? 0 then Ok tt
     else Raise (RuntimeError (failure_text label stdout stderr)),
     after_run st cmd s).
Proof.
  intros Hrun. unfold run_cmd, run. rewrite Hrun.
  now destruct (returncode =? 0).
Qed.

Lemma run_cmd_not_started (E : Env) (cmd : list string) (label : string)
    (st : State) (msg : string) (s : Sys) :
  subprocess_run E cmd (sys st) = (NotStarted msg, s) ->
  run_cmd E cmd label st = (Raise (OSError msg), after_run st cmd s).
Proof. intros Hrun. unfold run_cmd, run. now rewrite Hrun. Qed.

(** C8: write_metadata hands exactly two commands to the metadata
    editor, the video write first and the image write second, both with
    [-overwrite_original] (the files are rewritten in place, no backup
    copy is kept).  When the video write exits with a nonzero status the
    operation raises at once: the image write is never run, and the
    world is left exactly as the failed video write left it.  When the
    video write succeeds and the image write exits nonzero, the
    operation raises as well.  Only when both exit with zero does it
    return. *)
Theorem write_metadata_two_writes (E : Env) (exiftool_path : string)
    (image_path video_path : Path.t) (content_id : string) (st : State) :
  let v := exif_video_cmd exiftool_path video_path content_id in
  let i := exif_image_cmd exiftool_path image_path content_id in
  (In "-overwrite_original" (List.tl v) /\ In "-overwrite_original" (List.tl i)
   /\ List.last v "" = Path.str video_path
   /\ List.last i "" = Path.str image_path)
  /\ (forall rc out err s1,
        subprocess_run E v (sys st) = (Exited rc out err, s1) ->
        rc <> 0 ->
        write_metadata E exiftool_path image_path video_path content_id st
        = (Raise (RuntimeError (failure_text "exiftool video" out err)),
           after_run st v s1))
  /\ (forall out err s1 rc out' err' s2,
        subprocess_run E v (sys st) = (Exited 0 out err, s1) ->
        subprocess_run E i s1 = (Exited rc out' err', s2) ->
        rc <> 0 ->
        write_metadata E exiftool_path image_path video_path content_id st
        = (Raise (RuntimeError (failure_text "exiftool image" out' err')),
           after_run (after_run st v s1) i s2))
  /\ (forall out err s1 out' err' s2,
        subprocess_run E v (sys st) = (Exited 0 out err, s1) ->
        subprocess_run E i s1 = (Exited 0 out' err', s2) ->
        write_metadata E exiftool_path image_path video_path content_id st
        = (Ok tt, after_run (after_run st v s1) i s2)).
Proof.
  intros v i. split; [|split; [|split]].
  - subst v i. unfold exif_video_cmd, exif_image_cmd. simpl.
    repeat split; auto.
  - intros rc out err s1 Hv Hrc. unfold write_metadata, bind.
    fold v. rewrite (run_cmd_exited _ _ _ _ _ _ _ _ Hv).
    apply Z.eqb_neq in Hrc. now rewrite Hrc.
  - intros out err s1 rc out' err' s2 Hv Hi Hrc. unfold write_metadata, bind.
    fold v i. rewrite (run_cmd_exited _ _ _ _ _ _ _ _ Hv). simpl.
    rewrite (run_cmd_exited E i _ (after_run st v s1) _ _ _ _ Hi).
    apply Z.eqb_neq in Hrc. now rewrite Hrc.
  - intros out err s1 out' err' s2 Hv Hi. unfold write_metadata, bind.
    fold v i. rewrite (run_cmd_exited _ _ _ _ _ _ _ _ Hv). simpl.
    now rewrite (run_cmd_exited E i _ (after_run st v s1) _ _ _ _ Hi).
Qed.

Example demo_has_audio :
  (has_audio Demo.env "ffprobe" ["in"; "a.mp4"] Demo.empty).1 = Ok true
  /\ (has_audio Demo.env "ffprobe" ["in"; "b.mp4"] Demo.empty).1 = Ok false
  /\ (has_audio Demo.env "no_such_probe" ["in"; "a.mp4"] Demo.empty).1
     = Raise (OSError "No such file or directory: no_such_probe").
Proof. vm_compute. repeat split. Qed.

Lemma has_audio_by_completion_witness :
  (has_audio Demo.env "ffprobe" ["in"; "a.mp4"] Demo.empty).1 = Ok true
  /\ (has_audio Demo.env "ffprobe" ["in"; "b.mp4"] Demo.empty).1 = Ok false
  /\ (has_audio Demo.bare "ffprobe" ["in"; "a.mp4"] Demo.empty).1
     = Raise (OSError "[Errno 2] No such file or directory: 'ffprobe'").
Proof.
  split; [|split].
  - destruct (has_audio_by_completion Demo.env "ffprobe" ["in"; "a.mp4"]
                Demo.empty) as [H _].
    destruct (H 0 ("0" ++ nl) "" (sys Demo.empty) eq_refl) as [Hres _].
    rewrite Hres. reflexivity.
  - destruct (has_audio_by_completion Demo.env "ffprobe" ["in"; "b.mp4"]
                Demo.empty) as [H _].
    destruct (H 0 "" "" (sys Demo.empty) eq_refl) as [Hres _].
    rewrite Hres. reflexivity.
  - destruct (has_audio_by_completion Demo.bare "ffprobe" ["in"; "a.mp4"]
                Demo.empty) as [_ H].
    rewrite (H "[Errno 2] No such file or directory: 'ffprobe'"
               (sys Demo.empty) eq_refl).
    reflexivity.
Defined.

(** C6 as stated fails: where the probe is not installed, has_audio
    does not return false, it lets the error of the launch through. *)
Lemma has_audio_raises_when_probe_missing :
  (has_audio Demo.bare "ffprobe" ["in"; "a.mp4"] Demo.empty).1
  = Raise (OSError "[Errno 2] No such file or directory: 'ffprobe'")
  /\ ~ (exists b : bool,
          (has_audio Demo.bare "ffprobe" ["in"; "a.mp4"] Demo.empty).1 = Ok b).
Proof.
  split; [reflexivity|]. intros [b Hb]. discriminate Hb.
Qed.

Lemma write_metadata_two_writes_witness :
  (write_metadata Demo.env "exiftool_broken" ["a.jpeg"] ["a.mov"] "ID"
     Demo.empty).1
  = Raise (RuntimeError "exiftool video failed: Error: File format error")
  /\ (write_metadata Demo.env "exiftool" ["in"; "locked.jpeg"] ["a.mov"] "ID"
        Demo.empty).1
     = Raise (RuntimeError
                "exiftool image failed: Error: Permission denied - in/locked.jpeg")
  /\ (write_metadata Demo.env "exiftool" ["a.jpeg"] ["a.mov"] "ID"
        Demo.empty).1 = Ok tt.
Proof.
  split; [|split].
  - pose proof (write_metadata_two_writes Demo.env "exiftool_broken"
                  ["a.jpeg"] ["a.mov"] "ID" Demo.empty) as (_ & H & _).
    rewrite (H 1 "" ("Error: File format error" ++ nl) (sys Demo.empty)
               eq_refl ltac:(discriminate)).
    reflexivity.
  - pose proof (write_metadata_two_writes Demo.env "exiftool"
                  ["in"; "locked.jpeg"] ["a.mov"] "ID" Demo.empty)
      as (_ & _ & H & _).
    rewrite (H ("    1 image files updated" ++ nl) "" (sys Demo.empty)
               1 "" ("Error: Permission denied - in/locked.jpeg" ++ nl)
               (sys Demo.empty) eq_refl eq_refl ltac:(discriminate)).
    reflexivity.
  - pose proof (write_metadata_two_writes Demo.env "exiftool"
                  ["a.jpeg"] ["a.mov"] "ID" Demo.empty) as (_ & _ & _ & H).
    rewrite (H ("    1 image files updated" ++ nl) "" (sys Demo.empty)
               ("    1 image files updated" ++ nl) "" (sys Demo.empty)
               eq_refl eq_refl).
    reflexivity.
Defined.

(** ** Packing *)

Lemma read_bytes_at (E : Env) (p : Path.t) (st : State) :
  read_bytes E p st
  = (match bytes_at E (files (sys st)) p with
     | Some d => Ok d
     | None => Raise (missing p)
     end, st).
Proof.
  unfold read_bytes, bytes_at, missing.
  destruct (files (sys st) !! p) as [[d|es]|]; reflexivity.
Qed.

Lemma entry_date_time_set_files (E : Env) (f : gmap Path.t content)
    (s : Sys) (p : Path.t) :
  entry_date_time E (set_files f s) p = entry_date_time E s p.
Proof. reflexivity. Qed.

(** The ways pack_livp ends, by what becomes of each entry. *)
Lemma pack_livp_cases (E : Env) (photo_path video_path out_path : Path.t)
    (internal_base : string) (st : State) :
  let f0 := files (sys st) in
  let f1 := <[out_path := Archive []]> f0 in
  pack_livp E photo_path video_path out_path internal_base st
  = match entry_outcome E (sys st) f1 photo_path (internal_base ++ ".jpeg") with
    | inr e => (Raise e, with_files f1 st)
    | inl e1 =>
        let f2 := <[out_path := Archive [e1]]> f0 in
        match entry_outcome E (sys st) f2 video_path
                (internal_base ++ ".mov") with
        | inr e => (Raise e, with_files f2 st)
        | inl e2 =>
            (Ok tt, with_files (<[out_path := Archive [e1; e2]]> f0) st)
        end
    end.
Proof.
  intros f0 f1.
  unfold pack_livp, pack_entries, bind, zip_open_w, writestr, ret,
    entry_outcome.
  cbn [sys set_sys set_files files st_mtime fst snd].
  rewrite entry_date_time_set_files. fold f0. fold f1.
  destruct (new_ZipInfo E (internal_base ++ ".jpeg") _) as [info1|e];
    [|reflexivity].
  rewrite read_bytes_at.
  cbn [sys set_sys set_files files st_mtime fst snd]. fold f1.
  destruct (bytes_at E f1 photo_path) as [d1|]; [|reflexivity].
  cbv zeta.
  destruct (header_error (written_info (entry_info info1) d1 ZIP_STORED))
    as [e|]; [reflexivity|].
  cbn [sys set_sys set_files files st_mtime fst snd].
  subst f1. rewrite lookup_insert_eq, insert_insert_eq. cbn [app].
  rewrite entry_date_time_set_files.
  destruct (new_ZipInfo E (internal_base ++ ".mov") _) as [info2|e];
    [|reflexivity].
  rewrite read_bytes_at.
  cbn [sys set_sys set_files files st_mtime fst snd].
  destruct (bytes_at E _ video_path) as [d2|]; [|reflexivity].
  destruct (header_error (written_info (entry_info info2) d2 ZIP_STORED))
    as [e|]; [reflexivity|].
  cbn [sys set_sys set_files files st_mtime fst snd].
  rewrite lookup_insert_eq, insert_insert_eq. reflexivity.
Qed.

Lemma bytes_at_insert_ne (E : Env) (f : gmap Path.t content)
    (p q : Path.t) (c : content) :
  p <> q -> bytes_at E (<[q := c]> f) p = bytes_at E f p.
Proof. intros H. unfold bytes_at. now rewrite lookup_insert_ne. Qed.

Lemma bytes_at_insert_archive (E : Env) (f : gmap Path.t content)
    (p : Path.t) (es : list (ZipInfo * string)) :
  bytes_at E (<[p := Archive es]> f) p = Some (archive_bytes E es).
Proof. unfold bytes_at. now rewrite lookup_insert_eq. Qed.

Lemma bytes_at_insert_some (E : Env) (f : gmap Path.t content)
    (p q : Path.t) (es : list (ZipInfo * string)) :
  is_Some (f !! p) -> is_Some (bytes_at E (<[q := Archive es]> f) p).
Proof.
  intros [c Hc]. destruct (decide (q = p)) as [->|Hne].
  - rewrite bytes_at_insert_archive. eauto.
  - rewrite bytes_at_insert_ne by congruence. unfold bytes_at. rewrite Hc.
    destruct c; eauto.
Qed.

(** *** One entry *)

Lemma lor_le_add (a b : Z) : 0 <= a -> 0 <= b -> 0 <= Z.lor a b <= a + b.
Proof.
  intros Ha Hb. split; [now apply Z.lor_nonneg|].
  pose proof (Z.add_lor_land a b) as H.
  assert (0 <= Z.land a b) by (apply Z.land_nonneg; auto). lia.
Qed.

Lemma dos_fits (y mo da h mi sec : Z) :
  1980 <= y <= 2107 -> 1 <= mo <= 12 -> 1 <= da <= 31 ->
  0 <= h <= 23 -> 0 <= mi <= 59 -> 0 <= sec <= 59 ->
  fits 65535 (dosdate (y, mo, da, h, mi, sec)) = true
  /\ fits 65535 (dostime (y, mo, da, h, mi, sec)) = true.
Proof.
  intros Hy Hmo Hda Hh Hmi Hs. unfold fits, dosdate, dostime.
  rewrite !Z.shiftl_mul_pow2 by lia.
  change (2 ^ 9) with 512. change (2 ^ 5) with 32. change (2 ^ 11) with 2048.
  assert (Hs2 : 0 <= sec / 2 <= 29)
    by (split; [apply Z.div_pos; lia
               | apply Z.lt_succ_r, Z.div_lt_upper_bound; lia]).
  pose proof (lor_le_add ((y - 1980) * 512) (mo * 32)
                ltac:(lia) ltac:(lia)) as H1.
  pose proof (lor_le_add (Z.lor ((y - 1980) * 512) (mo * 32)) da
                ltac:(lia) ltac:(lia)) as H2.
  pose proof (lor_le_add (h * 2048) (mi * 32) ltac:(lia) ltac:(lia)) as H3.
  pose proof (lor_le_add (Z.lor (h * 2048) (mi * 32)) (sec / 2)
                ltac:(lia) ltac:(lia)) as H4.
  split; apply andb_true_intro; split; apply Z.leb_le; lia.
Qed.

Lemma entry_date_time_cases (E : Env) (s : Sys) (p : Path.t) :
  (forall ts dt,
     st_mtime s p = Some ts -> fromtimestamp E ts = Some dt ->
     entry_date_time E s p
     = (dt_year dt, dt_month dt, dt_day dt,
        dt_hour dt, dt_minute dt, dt_second dt))
  /\ (st_mtime s p = None
      \/ (exists ts, st_mtime s p = Some ts /\ fromtimestamp E ts = None) ->
      entry_date_time E s p = (1980, 1, 1, 0, 0, 0)).
Proof.
  unfold entry_date_time. split.
  - intros ts dt Hts Hdt. now rewrite Hts, Hdt.
  - intros [Hnone | (ts & Hts & Hdt)].
    + now rewrite Hnone.
    + now rewrite Hts, Hdt.
Qed.

Lemma entry_date_time_fits (E : Env) (s : Sys) (p : Path.t) :
  zip_time_range E s p ->
  1980 <= year (entry_date_time E s p)
  /\ fits 65535 (dosdate (entry_date_time E s p)) = true
  /\ fits 65535 (dostime (entry_date_time E s p)) = true.
Proof.
  intros Hr. unfold entry_date_time.
  destruct (st_mtime s p) as [ts|] eqn:Hts;
    [|split; [cbn; lia | split; reflexivity]].
  destruct (fromtimestamp E ts) as [dt|] eqn:Hdt;
    [|split; [cbn; lia | split; reflexivity]].
  destruct (Hr ts dt Hts Hdt) as [(Hmo & Hda & Hh & Hmi & Hs) Hy].
  split; [cbn; lia|]. now apply dos_fits.
Qed.

Lemma until_nul_id (n : string) : all_chars not_nul n = true -> until_nul n = n.
Proof.
  induction n as [|c n IH]; cbn; [reflexivity|].
  intros [Hc Hn]%andb_prop. unfold not_nul in Hc.
  apply negb_true_iff in Hc. rewrite Hc. now rewrite IH.
Qed.

(** What is known of an entry that went into the archive. *)
Lemma entry_outcome_inl (E : Env) (s : Sys) (f : gmap Path.t content)
    (p : Path.t) (n : string) (i : ZipInfo) (d : string) :
  entry_outcome E s f p n = inl (i, d) ->
  bytes_at E f p = Some d
  /\ filename i = until_nul n
  /\ date_time i = entry_date_time E s p
  /\ 1980 <= year (date_time i)
  /\ forced i
  /\ external_attr i = 25165824
  /\ versions_kept i d
  /\ (ZIP64_LIMIT < Z.of_nat (String.length d) ->
      create_version i = 45 /\ extract_version i = 45).
Proof.
  unfold entry_outcome, new_ZipInfo.
  destruct (year (entry_date_time E s p) <? 1980) eqn:Hy; [discriminate|].
  apply Z.ltb_ge in Hy.
  destruct (bytes_at E f p) as [d'|]; [|discriminate].
  cbv zeta. destruct (header_error _); [discriminate|].
  intros [= <- <-]. unfold written_info, entry_info, forced, versions_kept.
  cbn. split; [reflexivity|]. split; [reflexivity|].
  split; [reflexivity|]. split; [exact Hy|].
  destruct (ZIP64_LIMIT <? Z.of_nat (String.length d')) eqn:Hz; cbn.
  - apply Z.ltb_lt in Hz. repeat split; try lia.
  - apply Z.ltb_ge in Hz. repeat split; try lia.
Qed.

(** An entry goes into the archive when its file can be read, its time
    stamp is one a ZIP header has room for, and so is its name. *)
Lemma entry_outcome_ok (E : Env) (s : Sys) (f : gmap Path.t content)
    (p : Path.t) (n : string) (d : string) :
  bytes_at E f p = Some d -> zip_time_range E s p -> zip_name n ->
  exists i, entry_outcome E s f p n = inl (i, d).
Proof.
  intros Hd Hr [Hnul Hlen].
  destruct (entry_date_time_fits E s p Hr) as (Hy & Hdate & Htime).
  unfold entry_outcome, new_ZipInfo.
  rewrite (proj2 (Z.ltb_ge _ _) Hy), Hd. cbv zeta.
  unfold header_error, written_info, entry_info. cbn.
  rewrite Hdate, Htime, (until_nul_id _ Hnul).
  assert (Hfit : fits 65535 (encoded_length n) = true).
  { unfold fits. apply andb_true_intro. split; apply Z.leb_le; [|exact Hlen].
    clear. induction n as [|c n IH]; cbn [encoded_length]; [lia|].
    destruct (N_of_ascii c <? 128)%N; lia. }
  rewrite Hfit.
  destruct (ZIP64_LIMIT <? Z.of_nat (String.length d)); cbn; eauto.
Qed.

(** A time stamp before 1980 is refused, whatever the file holds. *)
Lemma entry_outcome_before_1980 (E : Env) (s : Sys) (f : gmap Path.t content)
    (p : Path.t) (n : string) :
  year (entry_date_time E s p) < 1980 ->
  entry_outcome E s f p n
  = inr (ValueError "ZIP does not support timestamps before 1980").
Proof.
  intros Hy. unfold entry_outcome, new_ZipInfo.
  now rewrite (proj2 (Z.ltb_lt _ _) Hy).
Qed.

Lemma pack_livp_ok (E : Env) (photo_path video_path out_path : Path.t)
    (internal_base : string) (st : State) :
  is_Some (files (sys st) !! photo_path) ->
  is_Some (files (sys st) !! video_path) ->
  zip_time_range E (sys st) photo_path ->
  zip_time_range E (sys st) video_path ->
  zip_name (internal_base ++ ".jpeg") ->
  zip_name (internal_base ++ ".mov") ->
  exists (i1 i2 : ZipInfo) (d1 d2 : string),
    pack_livp E photo_path video_path out_path internal_base st
    = (Ok tt,
       with_files (<[out_path := Archive [(i1, d1); (i2, d2)]]> (files (sys st))) st)
    /\ entry_outcome E (sys st) (<[out_path := Archive []]> (files (sys st)))
         photo_path (internal_base ++ ".jpeg") = inl (i1, d1)
    /\ entry_outcome E (sys st)
         (<[out_path := Archive [(i1, d1)]]> (files (sys st)))
         video_path (internal_base ++ ".mov") = inl (i2, d2).
Proof.
  intros Hp Hv Hrp Hrv Hnp Hnv. rewrite pack_livp_cases. cbv zeta.
  destruct (bytes_at_insert_some E _ _ out_path [] Hp) as [d1 Hd1].
  destruct (entry_outcome_ok E (sys st) _ _ _ _ Hd1 Hrp Hnp) as [i1 H1].
  rewrite H1.
  destruct (bytes_at_insert_some E _ _ out_path [(i1, d1)] Hv) as [d2 Hd2].
  destruct (entry_outcome_ok E (sys st) _ _ _ _ Hd2 Hrv Hnv) as [i2 H2].
  rewrite H2. exists i1, i2, d1, d2. auto.
Qed.


(** C7: every entry pack_livp packs carries the time stamp of its own
    source file.  Whatever happens, the archive left at the output path
    holds at most the image entry and then the video entry, both of them
    when pack_livp returns; the entry at each place has the name of that
    place and, when its source is not the output file itself, as its
    time stamp the modification time of the source of that place as
    local calendar time cut down to year, month, day, hour, minute and
    second (the microseconds are dropped), and exactly
    (1980, 1, 1, 0, 0, 0) when the modification time cannot be read or
    cannot be converted.  Both entries are packed whenever the two files
    can be read and stamped within the years and names a ZIP header has
    room for; a file whose readable time stamp lies before 1980 is not
    packed at all. *)
Theorem pack_livp_entry_timestamps (E : Env)
    (photo_path video_path out_path : Path.t)
    (internal_base : string) (st : State) :
  let r := pack_livp E photo_path video_path out_path internal_base st in
  exists es : list (ZipInfo * string),
    files (sys r.2) !! out_path = Some (Archive es)
    /\ (length es <= 2)%nat
    /\ (r.1 = Ok tt -> length es = 2%nat)
    /\ (forall (k : nat) (i : ZipInfo) (d : string) (p : Path.t) (n : string),
          es !! k = Some (i, d) ->
          [photo_path; video_path] !! k = Some p ->
          [internal_base ++ ".jpeg"; internal_base ++ ".mov"] !! k = Some n ->
          p <> out_path ->
          filename i = until_nul n
          /\ (forall ts dt,
                st_mtime (sys st) p = Some ts ->
                fromtimestamp E ts = Some dt ->
                date_time i
                = (dt_year dt, dt_month dt, dt_day dt,
                   dt_hour dt, dt_minute dt, dt_second dt))
          /\ (st_mtime (sys st) p = None
              \/ (exists ts, st_mtime (sys st) p = Some ts
                             /\ fromtimestamp E ts = None) ->
              date_time i = (1980, 1, 1, 0, 0, 0)))
    /\ (is_Some (files (sys st) !! photo_path) ->
        is_Some (files (sys st) !! video_path) ->
        zip_time_range E (sys st) photo_path ->
        zip_time_range E (sys st) video_path ->
        zip_name (internal_base ++ ".jpeg") ->
        zip_name (internal_base ++ ".mov") ->
        r.1 = Ok tt)
    /\ (forall ts dt,
          photo_path <> out_path ->
          st_mtime (sys st) photo_path = Some ts ->
          fromtimestamp E ts = Some dt ->
          dt_year dt < 1980 ->
          r.1 = Raise (ValueError "ZIP does not support timestamps before 1980")
          /\ es = []).
Proof.
  intros r.
  assert (Hstamp : forall f p n i d,
            entry_outcome E (sys st) f p n = inl (i, d) ->
            filename i = until_nul n
            /\ (forall ts dt,
                  st_mtime (sys st) p = Some ts ->
                  fromtimestamp E ts = Some dt ->
                  date_time i
                  = (dt_year dt, dt_month dt, dt_day dt,
                     dt_hour dt, dt_minute dt, dt_second dt))
            /\ (st_mtime (sys st) p = None
                \/ (exists ts, st_mtime (sys st) p = Some ts
                               /\ fromtimestamp E ts = None) ->
                date_time i = (1980, 1, 1, 0, 0, 0))).
  { intros f p n i d H.
    apply entry_outcome_inl in H as (_ & Hf & Hd & _).
    rewrite Hd. split; [exact Hf|]. apply entry_date_time_cases. }
  assert (Hok : is_Some (files (sys st) !! photo_path) ->
                is_Some (files (sys st) !! video_path) ->
                zip_time_range E (sys st) photo_path ->
                zip_time_range E (sys st) video_path ->
                zip_name (internal_base ++ ".jpeg") ->
                zip_name (internal_base ++ ".mov") ->
                r.1 = Ok tt).
  { intros Hp Hv Hrp Hrv Hnp Hnv. subst r.
    destruct (pack_livp_ok E photo_path video_path out_path internal_base st
                Hp Hv Hrp Hrv Hnp Hnv) as (i1 & i2 & d1 & d2 & -> & _).
    reflexivity. }
  revert Hok. subst r. rewrite pack_livp_cases. cbv zeta.
  destruct (entry_outcome E (sys st) _ photo_path _) as [[i1 d1]|e] eqn:H1.
  - destruct (entry_outcome E (sys st) _ video_path _) as [[i2 d2]|e] eqn:H2;
      intros Hok; eexists; (split; [apply lookup_insert_eq|]);
      (split; [cbn; lia|]); (split; [cbn; congruence|]);
      (split; [|split; [exact Hok|]]).
    + intros [|[|k]] i d p n Hk Hp Hn _; cbn in Hk, Hp, Hn; try discriminate.
      * injection Hk as <- <-. injection Hp as <-. injection Hn as <-.
        exact (Hstamp _ _ _ _ _ H1).
      * injection Hk as <- <-. injection Hp as <-. injection Hn as <-.
        exact (Hstamp _ _ _ _ _ H2).
    + intros ts dt _ Hts Hdt Hy.
      rewrite entry_outcome_before_1980 in H1; [discriminate|].
      rewrite (proj1 (entry_date_time_cases E (sys st) photo_path) ts dt Hts Hdt).
      exact Hy.
    + intros [|k] i d p n Hk Hp Hn _; cbn in Hk, Hp, Hn; try discriminate.
      injection Hk as <- <-. injection Hp as <-. injection Hn as <-.
      exact (Hstamp _ _ _ _ _ H1).
    + intros ts dt _ Hts Hdt Hy.
      rewrite entry_outcome_before_1980 in H1; [discriminate|].
      rewrite (proj1 (entry_date_time_cases E (sys st) photo_path) ts dt Hts Hdt).
      exact Hy.
  - intros Hok. eexists. split; [apply lookup_insert_eq|].
    split; [cbn; lia|]. split; [cbn; congruence|].
    split; [intros k i d p n Hk; cbn in Hk; discriminate|].
    split; [exact Hok|].
    intros ts dt _ Hts Hdt Hy.
    rewrite entry_outcome_before_1980 in H1.
    + injection H1 as <-. split; reflexivity.
    + rewrite (proj1 (entry_date_time_cases E (sys st) photo_path) ts dt Hts Hdt).
      exact Hy.
Qed.

(** ** One source file *)

Section OneFileFacts.

Context (E : Env).
Context (ffmpeg_path ffprobe_path exiftool_path : string).
Context (src out_dir : Path.t) (index : Z).
Context (cover_time max_duration : spec_float).
Context (fps max_width max_height : Z).

Lemma stages_split (out_path tmpdir : Path.t) (content_id base : string)
    (st : State) :
  stages E ffmpeg_path ffprobe_path exiftool_path src out_path tmpdir
    content_id base cover_time max_duration fps max_width max_height st
  = match tool_stages E ffmpeg_path ffprobe_path exiftool_path src
            cover_time max_duration fps max_width max_height
            tmpdir content_id st with
    | (Ok _, st3) =>
        pack_livp E (Path.join tmpdir "livephoto.jpeg")
          (Path.join tmpdir "livephoto.mov") out_path base st3
    | (Raise e, st3) => (Raise e, st3)
    end.
Proof.
  unfold stages, tool_stages, bind.
  destruct (build_video _ _ _ _ _ _ _ _ _ st) as [[[]|e] st1]; [|reflexivity].
  destruct (extract_still _ _ _ _ _ st1) as [[[]|e] st2]; [|reflexivity].
  destruct (write_metadata _ _ _ _ _ st2) as [[[]|e] st3]; reflexivity.
Qed.

(** build_livp is the run of the stages against the path chosen in the
    starting state, followed by the removal of the temporary directory. *)
Lemma build_livp_run (st : State) :
  build_livp E ffmpeg_path ffprobe_path exiftool_path src out_dir index
    cover_time max_duration fps max_width max_height st
  = let tmpdir := mkdtemp E (sys st) in
    let r := stages E ffmpeg_path ffprobe_path exiftool_path src
               (chosen_path src out_dir index (sys st)) tmpdir
               (content_id_at E st) (internal_base_of index)
               cover_time max_duration
               fps max_width max_height (drew st) in
    (match r.1 with
     | Ok _ => Ok (chosen_path src out_dir index (sys st))
     | Raise e => Raise e
     end, cleanup tmpdir r.2).
Proof.
  unfold build_livp, fresh_content_id, choose_out_path, path_exists,
    with_tmpdir, ret, chosen_path, bind.
  cbn [sys drawn trace printed].
  fold (plain_path src out_dir) (indexed_path src out_dir index).
  change (mk_State (sys st) (S (drawn st)) (trace st) (printed st))
    with (drew st).
  destruct (bool_decide (is_Some (files (sys st) !! plain_path src out_dir))).
  all: cbv zeta; cbn [sys drew].
  all: destruct (stages _ _ _ _ _ _ _ _ _ _ _ _ _ _ (drew st)) as [[[]|e] st1];
    reflexivity.
Qed.

Lemma has_audio_frame (p : Path.t) (st : State) :
  exists r s,
    has_audio E ffprobe_path p st = (r, after_run st (probe_cmd ffprobe_path p) s).
Proof.
  destruct (subprocess_run E (probe_cmd ffprobe_path p) (sys st))
    as [[rc out err|msg] s] eqn:Hrun.
  - rewrite (has_audio_exited _ _ _ _ _ _ _ _ Hrun). eauto.
  - rewrite (has_audio_not_started _ _ _ _ _ _ Hrun). eauto.
Qed.

Lemma run_cmd_frame (cmd : list string) (label : string) (st : State) :
  exists r s, run_cmd E cmd label st = (r, after_run st cmd s).
Proof.
  destruct (subprocess_run E cmd (sys st)) as [[rc out err|msg] s] eqn:Hrun.
  - rewrite (run_cmd_exited _ _ _ _ _ _ _ _ Hrun). eauto.
  - rewrite (run_cmd_not_started _ _ _ _ _ _ Hrun). eauto.
Qed.

(** What a run of the tool stages leaves in the trace: the commands of
    the pipeline up to the one that failed, all of them on success. *)
Lemma tool_stages_trace (tmpdir : Path.t) (content_id : string) (st : State) :
  let rs := tool_stages E ffmpeg_path ffprobe_path exiftool_path src
              cover_time max_duration fps max_width max_height
              tmpdir content_id st in
  exists audio cmds,
    trace rs.2 = (trace st ++ cmds)%list
    /\ drawn rs.2 = drawn st /\ printed rs.2 = printed st
    /\ cmds `prefix_of`
         pipeline_cmds ffmpeg_path ffprobe_path exiftool_path src
           cover_time max_duration fps max_width max_height
           tmpdir content_id audio
    /\ (rs.1 = Ok tt ->
        cmds = pipeline_cmds ffmpeg_path ffprobe_path exiftool_path src
                 cover_time max_duration fps max_width max_height
                 tmpdir content_id audio).
Proof.
  unfold tool_stages, build_video, extract_still, write_metadata, bind.
  cbv zeta.
  destruct (has_audio_frame src st) as (r0 & s0 & ->).
  destruct r0 as [audio|e]; cycle 1.
  { exists false, [probe_cmd ffprobe_path src]. cbn.
    trace_facts; [by eexists | discriminate]. }
  exists audio.
  destruct (run_cmd_frame
              (encoder_cmd ffmpeg_path src (Path.join tmpdir "livephoto.mov")
                 max_duration fps max_width max_height audio)
              "ffmpeg video" (after_run st (probe_cmd ffprobe_path src) s0))
    as (r1 & s1 & ->).
  destruct r1 as [[]|e]; cycle 1.
  { eexists [_; _]. cbn. rewrite <- !app_assoc.
    trace_facts; [by eexists | discriminate]. }
  match goal with |- context [run_cmd E ?c ?l ?s] =>
    destruct (run_cmd_frame c l s) as (r2 & s2 & ->) end.
  destruct r2 as [[]|e]; cycle 1.
  { eexists [_; _; _]. cbn. rewrite <- !app_assoc.
    trace_facts; [by eexists | discriminate]. }
  match goal with |- context [run_cmd E ?c ?l ?s] =>
    destruct (run_cmd_frame c l s) as (r3 & s3 & ->) end.
  destruct r3 as [[]|e]; cycle 1.
  { eexists [_; _; _; _]. cbn. rewrite <- !app_assoc.
    trace_facts; [by eexists | discriminate]. }
  match goal with |- context [run_cmd E ?c ?l ?s] =>
    destruct (run_cmd_frame c l s) as (r4 & s4 & ->) end.
  eexists [_; _; _; _; _]. cbn. rewrite <- !app_assoc.
  trace_facts; [by exists [] | reflexivity].
Qed.

End OneFileFacts.

(** ** The content identifier *)



Lemma pack_livp_frame (E : Env) (photo_path video_path out_path : Path.t)
    (base : string) (st : State) :
  let st' := (pack_livp E photo_path video_path out_path base st).2 in
  trace st' = trace st /\ drawn st' = drawn st /\ printed st' = printed st.
Proof.
  rewrite pack_livp_cases. cbv zeta.
  destruct (entry_outcome E _ _ photo_path _) as [e1|e]; [|by repeat split].
  destruct (entry_outcome E _ _ video_path _) as [e2|e]; by repeat split.
Qed.


(** ** The output name *)

Lemma name_join (p : Path.t) (n : string) : Path.name (Path.join p n) = n.
Proof. unfold Path.name, Path.join. apply last_last. Qed.

Lemma cleanup_lookup (tmpdir p : Path.t) (st : State) :
  ~ tmpdir `prefix_of` p ->
  files (sys (cleanup tmpdir st)) !! p = files (sys st) !! p.
Proof.
  intros Hp. unfold cleanup. cbn [sys set_sys set_files files].
  destruct (files (sys st) !! p) as [c|] eqn:Hc.
  - apply map_lookup_filter_Some. split; auto.
  - apply map_lookup_filter_None. left. exact Hc.
Qed.

Lemma zeros_not_nul (k : nat) : all_chars not_nul (zeros k) = true.
Proof. induction k as [|k IH]; [reflexivity | exact IH]. Qed.

Lemma digits_not_nul (s : string) :
  all_chars is_digit s = true -> all_chars not_nul s = true.
Proof.
  apply all_chars_impl. intros c.
  destruct c as [[] [] [] [] [] [] [] []]; intros H;
    solve [reflexivity | discriminate H].
Qed.

Lemma fmt_04d_not_nul (z : Z) : all_chars not_nul (fmt_04d z) = true.
Proof.
  unfold fmt_04d, zfill. destruct (z <? 0).
  - cbn [String.append all_chars]. rewrite all_chars_app, zeros_not_nul.
    cbn. apply digits_not_nul, str_N_digits.
  - rewrite all_chars_app, zeros_not_nul.
    cbn. apply digits_not_nul, str_N_digits.
Qed.

(** The names build_livp gives the two entries hold no null
    character. *)
Lemma internal_name_not_nul (index : Z) (ext : string) :
  all_chars not_nul ext = true ->
  all_chars not_nul (internal_base_of index ++ ext) = true.
Proof.
  intros Hext. unfold internal_base_of.
  rewrite !all_chars_app, fmt_04d_not_nul, Hext. reflexivity.
Qed.




(** ** The batch *)

Section Batch.

Context (E : Env).
Context (ffmpeg_path ffprobe_path exiftool_path : string).
Context (out_dir : Path.t).
Context (cover_time max_duration : spec_float).
Context (fps max_width max_height : Z).

(** The loop stops at the first source whose build_livp raises, whatever
    comes after it. *)
Lemma batch_first_failure (pre post : list Path.t) (src : Path.t)
    (idx : Z) (st st_k st_f : State) (e : exn) :
  batch E ffmpeg_path ffprobe_path exiftool_path out_dir
    cover_time max_duration fps max_width max_height idx pre st = (0, st_k) ->
  build_livp E ffmpeg_path ffprobe_path exiftool_path src out_dir
    (idx + Z.of_nat (length pre)) cover_time max_duration
    fps max_width max_height (print (processing src) st_k) = (Raise e, st_f) ->
  batch E ffmpeg_path ffprobe_path exiftool_path out_dir
    cover_time max_duration fps max_width max_height idx
    (pre ++ src :: post) st
  = (1, print (failed src e) st_f).
Proof.
  revert idx st. induction pre as [|a pre IH]; intros idx st Hpre Hfail.
  - cbn in Hpre. injection Hpre as <-. cbn [app length] in *.
    rewrite Z.add_0_r in Hfail. cbn [batch]. unfold processing in Hfail.
    now rewrite Hfail.
  - cbn [app batch] in *.
    destruct (build_livp _ _ _ _ _ _ _ _ _ _ _ _ _) as [[out_path|e'] st1].
    + apply (IH (idx + 1) _ Hpre).
      rewrite <- Hfail. f_equal. cbn [length]. lia.
    + discriminate Hpre.
Qed.

Lemma main_nonempty (sources : list Path.t) (st : State) :
  sources <> [] ->
  main E ffmpeg_path ffprobe_path exiftool_path out_dir
    cover_time max_duration fps max_width max_height sources st
  = batch E ffmpeg_path ffprobe_path exiftool_path out_dir
      cover_time max_duration fps max_width max_height 1 sources
      (print (found sources) st).
Proof. destruct sources; [congruence | reflexivity]. Qed.

End Batch.

(** C9: in a batch over the sorted sources, when every source before
    some source has been processed with success and build_livp raises on
    that one, main prints its failure with the cause and returns 1.
    The run ends in the state that failed build_livp left, plus the one
    printed line: no command is run and nothing is printed for any later
    source, and the outcome does not depend on which sources come
    later. *)
Theorem main_aborts_on_first_failure (E : Env)
    (ffmpeg_path ffprobe_path exiftool_path : string) (out_dir : Path.t)
    (cover_time max_duration : spec_float) (fps max_width max_height : Z)
    (pre post : list Path.t) (src : Path.t)
    (st st_k st_f : State) (e : exn) :
  let sources := (pre ++ src :: post)%list in
  batch E ffmpeg_path ffprobe_path exiftool_path out_dir
    cover_time max_duration fps max_width max_height 1 pre
    (print (found sources) st) = (0, st_k) ->
  build_livp E ffmpeg_path ffprobe_path exiftool_path src out_dir
    (1 + Z.of_nat (length pre)) cover_time max_duration
    fps max_width max_height (print (processing src) st_k) = (Raise e, st_f) ->
  let outcome := main E ffmpeg_path ffprobe_path exiftool_path out_dir
                   cover_time max_duration fps max_width max_height
                   sources st in
  outcome = (1, print (failed src e) st_f)
  /\ outcome.1 <> 0
  /\ trace outcome.2 = trace st_f
  /\ printed outcome.2 = (printed st_f ++ [failed src e])%list
  /\ (forall post' : list Path.t,
        length post' = length post ->
        main E ffmpeg_path ffprobe_path exiftool_path out_dir
          cover_time max_duration fps max_width max_height
          (pre ++ src :: post') st = outcome).
Proof.
  intros sources Hpre Hfail outcome.
  assert (Hout : outcome = (1, print (failed src e) st_f)).
  { subst outcome. rewrite main_nonempty by (subst sources; now destruct pre).
    apply (batch_first_failure E _ _ _ _ _ _ _ _ _ _ _ _ _ _ _ _ _ Hpre Hfail). }
  split; [exact Hout|]. rewrite Hout.
  split; [discriminate|]. split; [reflexivity|]. split; [reflexivity|].
  intros post' Hlen. rewrite main_nonempty by now destruct pre.
  assert (Hfound : found (pre ++ src :: post') = found sources).
  { unfold found, sources. rewrite !length_app. cbn [length]. now rewrite Hlen. }
  rewrite Hfound.
  apply (batch_first_failure E _ _ _ _ _ _ _ _ _ _ _ _ _ _ _ _ _ Hpre Hfail).
Qed.

(** ** The program at work *)

Example demo_collision :
  (demo_build Demo.video_mp4 3 Demo.crowded).1 = Ok ["out"; "video_0003.livp"]
  /\ (demo_build Demo.video_mp4 3 Demo.empty).1 = Ok ["out"; "video.livp"].
Proof. vm_compute. split; reflexivity. Qed.

Example demo_trace :
  trace (demo_build ["in"; "a.mp4"] 1 Demo.empty).2
  = [ ["ffprobe"; "-v"; "error"; "-select_streams"; "a"; "-show_entries";
       "stream=index"; "-of"; "csv=p=0"; "in/a.mp4"];
      ["ffmpeg"; "-y"; "-i"; "in/a.mp4"; "-map"; "0:v:0"; "-map"; "0:a:0";
       "-vf";
       "scale=min(3840,iw):min(2160,ih):force_original_aspect_ratio=decrease,scale=trunc(iw/2)*2:trunc(ih/2)*2,fps=30";
       "-t"; "2.900"; "-c:v"; "libx264"; "-pix_fmt"; "yuv420p";
       "-profile:v"; "high"; "-level"; "4.1"; "-c:a"; "aac"; "-b:a"; "128k";
       "-ar"; "44100"; "-ac"; "2"; "-shortest";
       "tmp/livp_k3x0/livephoto.mov"];
      ["ffmpeg"; "-y"; "-ss"; "0.500"; "-i"; "tmp/livp_k3x0/livephoto.mov";
       "-frames:v"; "1"; "-q:v"; "2"; "tmp/livp_k3x0/livephoto.jpeg"];
      ["exiftool"; "-m"; "-overwrite_original";
       "-QuickTime:ContentIdentifier=7D3F9A2C-51BE-4C0D-9E6A-0B1C2D3E4F50";
       "-QuickTime:LivePhoto=1"; "-QuickTime:LivePhotoAuto=1";
       "tmp/livp_k3x0/livephoto.mov"];
      ["exiftool"; "-m"; "-overwrite_original";
       "-Apple:ContentIdentifier=7D3F9A2C-51BE-4C0D-9E6A-0B1C2D3E4F50";
       "-XMP:AssetIdentifier=7D3F9A2C-51BE-4C0D-9E6A-0B1C2D3E4F50";
       "tmp/livp_k3x0/livephoto.jpeg"] ].
Proof. vm_compute. reflexivity. Qed.

Example demo_archive :
  files (sys (demo_build ["in"; "a.mp4"] 1 Demo.empty).2) !! ["out"; "a.livp"]
  = Some (Archive
      [ (mk_ZipInfo "IMG_0001.JPG.jpeg" (1980, 1, 1, 0, 0, 0) 0 0 0 0 20
           25165824, "jpeg");
        (mk_ZipInfo "IMG_0001.JPG.mov" (2024, 5, 6, 7, 8, 9) 0 0 0 0 20
           25165824, "mov") ])
  /\ files (sys (demo_build ["in"; "a.mp4"] 1 Demo.empty).2) !! Demo.tmp_mov
     = None.
Proof. vm_compute. split; reflexivity. Qed.



Ltac demo_stamps :=
  let Hdt := fresh "Hdt" in
  intros ts dt _ Hdt; cbn in Hdt; injection Hdt as <-;
  unfold valid_datetime; cbn; lia.

Ltac demo_name := split; [reflexivity | vm_compute; discriminate].




Lemma pack_livp_entry_timestamps_witness :
  exists (i1 i2 : ZipInfo) (d1 d2 : string),
    files (sys (pack_livp Demo.env Demo.tmp_jpeg Demo.tmp_mov
                  ["out"; "a.livp"] "IMG_0001.JPG" Demo.ready).2)
      !! ["out"; "a.livp"]
    = Some (Archive [(i1, d1); (i2, d2)])
    /\ date_time i1 = (1980, 1, 1, 0, 0, 0)
    /\ date_time i2 = (2024, 5, 6, 7, 8, 9).
Proof.
  destruct (pack_livp_entry_timestamps Demo.env Demo.tmp_jpeg Demo.tmp_mov
              ["out"; "a.livp"] "IMG_0001.JPG" Demo.ready)
    as (es & Hfile & _ & Hlen & Hstamp & Hok & _).
  assert (Hr : (pack_livp Demo.env Demo.tmp_jpeg Demo.tmp_mov
                  ["out"; "a.livp"] "IMG_0001.JPG" Demo.ready).1 = Ok tt).
  { apply Hok;
      [ vm_compute; eauto | vm_compute; eauto | demo_stamps | demo_stamps
      | demo_name | demo_name ]. }
  specialize (Hlen Hr).
  destruct es as [|[i1 d1] [|[i2 d2] [|e3 es]]]; try discriminate Hlen.
  exists i1, i2, d1, d2. split; [exact Hfile|]. split.
  - destruct (Hstamp 0%nat i1 d1 Demo.tmp_jpeg "IMG_0001.JPG.jpeg"
                eq_refl eq_refl eq_refl ltac:(discriminate))
      as (_ & _ & Hfallback).
    apply Hfallback. left. reflexivity.
  - destruct (Hstamp 1%nat i2 d2 Demo.tmp_mov "IMG_0001.JPG.mov"
                eq_refl eq_refl eq_refl ltac:(discriminate))
      as (_ & Hts & _).
    apply (Hts (S754_finite false 1714979289 0)
             (mk_datetime 2024 5 6 7 8 9 123456)); reflexivity.
Defined.

Lemma main_aborts_on_first_failure_witness :
  (demo_main demo_sources Demo.empty).1 = 1
  /\ printed (demo_main demo_sources Demo.empty).2
     = [ "Found 3 video file(s).";
         "Processing: a.mp4";
         "Output: a.livp";
         "Processing: bad.mp4";
         "Failed: bad.mp4 -> ffmpeg video failed: in/bad.mp4: Invalid data found when processing input" ].
Proof.
  set (st0 := print (found demo_sources) Demo.empty).
  set (st_k := (batch Demo.env "ffmpeg" "ffprobe" "exiftool" Demo.out
                  float_0_5 float_2_9 30 3840 2160 1 [ ["in"; "a.mp4"] ] st0).2).
  set (st_f := (demo_build ["in"; "bad.mp4"] 2
                  (print (processing ["in"; "bad.mp4"]) st_k)).2).
  pose proof (main_aborts_on_first_failure Demo.env
                "ffmpeg" "ffprobe" "exiftool" Demo.out
                float_0_5 float_2_9 30 3840 2160
                [ ["in"; "a.mp4"] ] [ ["in"; "c.mp4"] ] ["in"; "bad.mp4"]
                Demo.empty st_k st_f
                (RuntimeError
                   "ffmpeg video failed: in/bad.mp4: Invalid data found when processing input"))
    as H.
  cbv zeta in H.
  destruct H as (Hout & _).
  - vm_compute. reflexivity.
  - vm_compute. reflexivity.
  - assert (Hout' : demo_main demo_sources Demo.empty
                    = (1, print (failed ["in"; "bad.mp4"]
                                   (RuntimeError
                                      "ffmpeg video failed: in/bad.mp4: Invalid data found when processing input"))
                            st_f)) by exact Hout.
    rewrite Hout'. vm_compute. split; reflexivity.
Defined.


(** * Further properties *)

(** ** The transcoder calls *)



(** X2: extract_still asks the transcoder to seek first and open the
    normalized video second ([-ss] stands before [-i]), to write exactly
    one frame at quality 2, into the destination; the seek position is
    the cover time printed by [.3f], a text with three decimals for
    every cover time that is a number.  A nonzero exit raises
    [ffmpeg still failed: ...], a zero exit returns. *)
Theorem extract_still_command (E : Env) (ffmpeg_path : string)
    (src dst : Path.t) (cover_time : spec_float) (st : State) :
  let cmd := still_cmd ffmpeg_path src dst cover_time in
  List.firstn 5 (options cmd)
  = [ Switch "-y"; Opt "-ss" (fmt_3f cover_time); Opt "-i" (Path.str src);
      Opt "-frames:v" "1"; Opt "-q:v" "2" ]
  /\ List.last cmd "" = Path.str dst
  /\ three_decimals (fmt_3f cover_time) = is_finite cover_time
  /\ (forall rc out err s1,
        subprocess_run E cmd (sys st) = (Exited rc out err, s1) ->
        extract_still E ffmpeg_path src dst cover_time st
        = (if rc =? 0 then Ok tt
           else Raise (RuntimeError (failure_text "ffmpeg still" out err)),
           after_run st cmd s1)).
Proof.
  intros cmd. subst cmd. unfold options, still_cmd.
  split; [|split; [|split]].
  - generalize (fmt_3f cover_time) (Path.str src) (Path.str dst).
    intros t s d. cbn. destruct (is_switch d); reflexivity.
  - reflexivity.
  - apply fmt_3f_three_decimals.
  - intros rc out err s1 Hrun. unfold extract_still.
    apply (run_cmd_exited _ _ _ _ _ _ _ _ Hrun).
Qed.

Lemma extract_still_command_witness :
  (extract_still Demo.env "ffmpeg" ["in"; "bad.mp4"] Demo.tmp_jpeg
     float_0_5 Demo.empty).1
  = Raise (RuntimeError
             "ffmpeg still failed: in/bad.mp4: Invalid data found when processing input").
Proof.
  destruct (extract_still_command Demo.env "ffmpeg" ["in"; "bad.mp4"]
              Demo.tmp_jpeg float_0_5 Demo.empty) as (_ & _ & _ & H).
  rewrite (H 1 "" ("in/bad.mp4: Invalid data found when processing input" ++ nl)
             (sys Demo.empty) eq_refl).
  vm_compute. reflexivity.
Defined.

(** ** The message of a failed command *)

Lemma head_lstrip (s : string) (c : ascii) :
  head_char (lstrip s) = Some c -> is_space c = false.
Proof.
  induction s as [|a r IH]; simpl; [discriminate|].
  destruct (is_space a) eqn:Ha; [exact IH|].
  simpl. now intros [= <-].
Qed.

Lemma last_char_cons (a : ascii) (r : string) :
  last_char (String a r)
  = match last_char r with Some c => Some c | None => Some a end.
Proof.
  revert a. induction r as [|b r IH]; intros a; [reflexivity|].
  change (last_char (String a (String b r))) with (last_char (String b r)).
  rewrite IH. now destruct (last_char r).
Qed.

Lemma last_lstrip (s : string) (c : ascii) :
  last_char (lstrip s) = Some c -> last_char s = Some c.
Proof.
  induction s as [|a r IH]; simpl lstrip; [discriminate|].
  destruct (is_space a); [|auto].
  intros H. rewrite last_char_cons, (IH H). reflexivity.
Qed.

Lemma head_rev_string (s acc : string) :
  head_char (rev_string s acc)
  = match last_char s with Some c => Some c | None => head_char acc end.
Proof.
  revert acc. induction s as [|a r IH]; intros acc; [reflexivity|].
  simpl rev_string. rewrite IH, last_char_cons.
  now destruct (last_char r).
Qed.

Lemma last_rev_string (s acc : string) :
  last_char (rev_string s acc)
  = match last_char acc with Some c => Some c | None => head_char s end.
Proof.
  revert acc. induction s as [|a r IH]; intros acc.
  - simpl. now destruct (last_char acc).
  - simpl rev_string. rewrite IH, last_char_cons.
    now destruct (last_char acc).
Qed.

Lemma strip_trimmed (s : string) : trimmed (strip s).
Proof.
  unfold trimmed, strip. split; intros c.
  - rewrite head_rev_string.
    destruct (last_char (lstrip (rev_string (lstrip s) ""))) as [c'|] eqn:Hl;
      [|discriminate].
    intros [= <-]. apply last_lstrip in Hl.
    rewrite last_rev_string in Hl. simpl in Hl.
    now apply head_lstrip in Hl.
  - rewrite last_rev_string. simpl. apply head_lstrip.
Qed.

Lemma strip_blank (s : string) :
  all_chars is_space s = true -> strip s = "".
Proof.
  intros H. pose proof (truthy_strip s) as Ht. rewrite H in Ht.
  now destruct (strip s).
Qed.

(** X3: when a command exits with a nonzero status, run_cmd raises a
    RuntimeError whose text is the label, [ failed: ] and a detail that
    neither starts nor ends with white space.  The detail is the
    stripped standard error whenever the standard error is not empty,
    and the stripped standard output only when the standard error is
    empty: a standard error made of white space alone hides whatever the
    standard output says, and the detail is then empty. *)
Theorem run_cmd_failure_message (E : Env) (cmd : list string) (label : string)
    (st : State) (returncode : Z) (stdout stderr : string) (s1 : Sys) :
  subprocess_run E cmd (sys st) = (Exited returncode stdout stderr, s1) ->
  returncode <> 0 ->
  exists detail,
    run_cmd E cmd label st
    = (Raise (RuntimeError (label ++ " failed: " ++ detail)),
       after_run st cmd s1)
    /\ trimmed detail
    /\ (stderr <> "" -> detail = strip stderr)
    /\ (stderr = "" -> detail = strip stdout)
    /\ (stderr <> "" -> all_chars is_space stderr = true -> detail = "").
Proof.
  intros Hrun Hrc.
  exists (strip (text_or stderr (text_or stdout ""))).
  split; [|split; [apply strip_trimmed|]].
  - rewrite (run_cmd_exited _ _ _ _ _ _ _ _ Hrun).
    apply Z.eqb_neq in Hrc. now rewrite Hrc.
  - unfold text_or. destruct stderr as [|c r]; simpl.
    + split; [congruence|]. split; [|congruence].
      intros _. now destruct stdout.
    + split; [reflexivity|]. split; [discriminate|].
      intros _ Hsp. now apply strip_blank.
Qed.

Lemma run_cmd_failure_message_witness :
  (run_cmd Demo.env ["ffmpeg"; "in/bad.mp4"] "ffmpeg video" Demo.empty).1
  = Raise (RuntimeError
             "ffmpeg video failed: in/bad.mp4: Invalid data found when processing input").
Proof.
  destruct (run_cmd_failure_message Demo.env ["ffmpeg"; "in/bad.mp4"]
              "ffmpeg video" Demo.empty 1 ""
              ("in/bad.mp4: Invalid data found when processing input" ++ nl)
              (sys Demo.empty) eq_refl ltac:(discriminate))
    as (detail & Hres & _ & Hdetail & _).
  rewrite Hres, (Hdetail ltac:(discriminate)). vm_compute. reflexivity.
Defined.

(** ** What a run leaves behind *)

Lemma cleanup_removes (tmpdir p : Path.t) (st : State) :
  tmpdir `prefix_of` p -> files (sys (cleanup tmpdir st)) !! p = None.
Proof.
  intros Hp. unfold cleanup. cbn [sys set_sys set_files files].
  apply map_lookup_filter_None. right. intros c _ Hn. now apply Hn.
Qed.

Lemma build_livp_final_state (E : Env)
    (ffmpeg_path ffprobe_path exiftool_path : string)
    (src out_dir : Path.t) (index : Z)
    (cover_time max_duration : spec_float)
    (fps max_width max_height : Z) (st : State) :
  (build_livp E ffmpeg_path ffprobe_path exiftool_path src out_dir index
     cover_time max_duration fps max_width max_height st).2
  = cleanup (mkdtemp E (sys st))
      (stages E ffmpeg_path ffprobe_path exiftool_path src
         (chosen_path src out_dir index (sys st)) (mkdtemp E (sys st))
         (content_id_at E st) (internal_base_of index)
         cover_time max_duration fps max_width max_height (drew st)).2.
Proof. rewrite build_livp_run. reflexivity. Qed.

(** X4: when build_livp is over, with a result or with an error, no file
    is left in or below the temporary directory it worked in: the
    normalized video and the cover image in particular are gone. *)
Theorem build_livp_leaves_no_temporary_file (E : Env)
    (ffmpeg_path ffprobe_path exiftool_path : string)
    (src out_dir : Path.t) (index : Z)
    (cover_time max_duration : spec_float)
    (fps max_width max_height : Z) (st : State) (p : Path.t) :
  mkdtemp E (sys st) `prefix_of` p ->
  files (sys (build_livp E ffmpeg_path ffprobe_path exiftool_path src out_dir
                index cover_time max_duration fps max_width max_height st).2)
    !! p = None.
Proof.
  intros Hp. rewrite build_livp_final_state. now apply cleanup_removes.
Qed.

Lemma build_livp_leaves_no_temporary_file_witness :
  files (sys (build_livp Demo.env "ffmpeg" "ffprobe" "exiftool"
                ["in"; "a.mp4"] Demo.out 1 float_0_5 float_2_9 30 3840 2160
                Demo.empty).2) !! Demo.tmp_mov = None.
Proof.
  apply build_livp_leaves_no_temporary_file.
  exists ["livephoto.mov"]. reflexivity.
Defined.

(** X5: the output archive is opened only once the three tool stages
    have succeeded.  When one of them raises, build_livp raises the same
    error, packs nothing, and apart from emptying the temporary
    directory leaves every file as the tools left it: an existing file
    at the output path is not touched by build_livp. *)
Theorem build_livp_stops_at_failed_stage (E : Env)
    (ffmpeg_path ffprobe_path exiftool_path : string)
    (src out_dir : Path.t) (index : Z)
    (cover_time max_duration : spec_float)
    (fps max_width max_height : Z) (st st3 : State) (e : exn) :
  let tmpdir := mkdtemp E (sys st) in
  tool_stages E ffmpeg_path ffprobe_path exiftool_path src
    cover_time max_duration fps max_width max_height
    tmpdir (content_id_at E st) (drew st) = (Raise e, st3) ->
  build_livp E ffmpeg_path ffprobe_path exiftool_path src out_dir index
    cover_time max_duration fps max_width max_height st
  = (Raise e, cleanup tmpdir st3)
  /\ (forall p, ~ tmpdir `prefix_of` p ->
      files (sys (cleanup tmpdir st3)) !! p = files (sys st3) !! p).
Proof.
  intros tmpdir Htools. split.
  - rewrite build_livp_run. cbv zeta. fold tmpdir.
    now rewrite stages_split, Htools.
  - intros p Hp. now apply cleanup_lookup.
Qed.

Lemma build_livp_stops_at_failed_stage_witness :
  (build_livp Demo.env "ffmpeg" "ffprobe" "exiftool"
     ["in"; "bad.mp4"] Demo.out 3 float_0_5 float_2_9 30 3840 2160
     Demo.crowded).1
  = Raise (RuntimeError
             "ffmpeg video failed: in/bad.mp4: Invalid data found when processing input").
Proof.
  set (st3 := (tool_stages Demo.env "ffmpeg" "ffprobe" "exiftool"
                 ["in"; "bad.mp4"] float_0_5 float_2_9 30 3840 2160
                 Demo.tmpdir (content_id_at Demo.env Demo.crowded)
                 (drew Demo.crowded)).2).
  destruct (build_livp_stops_at_failed_stage Demo.env
              "ffmpeg" "ffprobe" "exiftool" ["in"; "bad.mp4"] Demo.out 3
              float_0_5 float_2_9 30 3840 2160 Demo.crowded st3
              (RuntimeError
                 "ffmpeg video failed: in/bad.mp4: Invalid data found when processing input"))
    as [H _].
  - vm_compute. reflexivity.
  - rewrite H. reflexivity.
Defined.

(** X6: pack_livp opens the output file before it looks at its inputs.
    When the image is not there it raises the error of the read, and the
    output path is left holding an archive without entries, whatever it
    held before; so it is when the image is there but stamped before
    1980, with the error of the header.  When the image is packed and
    the video is not there, it raises and leaves an archive with the
    image entry alone. *)
Theorem pack_livp_partial_archive (E : Env)
    (photo_path video_path out_path : Path.t)
    (internal_base : string) (st : State) :
  (files (sys st) !! photo_path = None -> st_mtime (sys st) photo_path = None ->
   photo_path <> out_path ->
   pack_livp E photo_path video_path out_path internal_base st
   = (Raise (missing photo_path),
      with_files (<[out_path := Archive []]> (files (sys st))) st))
  /\ (forall ts dt,
        st_mtime (sys st) photo_path = Some ts ->
        fromtimestamp E ts = Some dt ->
        dt_year dt < 1980 ->
        photo_path <> out_path ->
        pack_livp E photo_path video_path out_path internal_base st
        = (Raise (ValueError "ZIP does not support timestamps before 1980"),
           with_files (<[out_path := Archive []]> (files (sys st))) st))
  /\ (forall d1,
        bytes_at E (files (sys st)) photo_path = Some d1 ->
        zip_time_range E (sys st) photo_path ->
        zip_name (internal_base ++ ".jpeg") ->
        photo_path <> out_path ->
        files (sys st) !! video_path = None ->
        st_mtime (sys st) video_path = None ->
        video_path <> out_path ->
        exists i1 : ZipInfo,
          pack_livp E photo_path video_path out_path internal_base st
          = (Raise (missing video_path),
             with_files (<[out_path := Archive [(i1, d1)]]> (files (sys st)))
               st)
          /\ filename i1 = internal_base ++ ".jpeg"
          /\ date_time i1 = entry_date_time E (sys st) photo_path
          /\ external_attr i1 = 25165824).
Proof.
  assert (Hmiss : forall f p n,
            f !! p = None -> st_mtime (sys st) p = None ->
            entry_outcome E (sys st) f p n = inr (missing p)).
  { intros f p n Hnone Hmt. unfold entry_outcome, new_ZipInfo, entry_date_time.
    rewrite Hmt. cbn. unfold bytes_at. now rewrite Hnone. }
  split; [|split].
  - intros Hnone Hmt Hne. rewrite pack_livp_cases. cbv zeta.
    rewrite Hmiss; [reflexivity | | exact Hmt].
    now rewrite lookup_insert_ne by congruence.
  - intros ts dt Hts Hdt Hy _. rewrite pack_livp_cases. cbv zeta.
    rewrite entry_outcome_before_1980; [reflexivity|].
    now rewrite (proj1 (entry_date_time_cases E (sys st) photo_path)
                   ts dt Hts Hdt).
  - intros d1 Hd1 Hr Hn Hne1 Hnone Hmt Hne2. rewrite pack_livp_cases. cbv zeta.
    assert (Hd1' : bytes_at E (<[out_path := Archive []]> (files (sys st)))
                     photo_path = Some d1)
      by now rewrite bytes_at_insert_ne.
    destruct (entry_outcome_ok E (sys st) _ _ _ _ Hd1' Hr Hn) as [i1 H1].
    rewrite H1.
    rewrite Hmiss; [| now rewrite lookup_insert_ne by congruence | exact Hmt].
    apply entry_outcome_inl in H1 as (_ & Hf & Hdt & _ & _ & Hx & _).
    rewrite until_nul_id in Hf by apply Hn.
    exists i1. auto.
Qed.

Lemma pack_livp_partial_archive_witness :
  files (sys (pack_livp Demo.env Demo.tmp_jpeg Demo.tmp_mov
                ["out"; "video.livp"] "IMG_0001.JPG" Demo.crowded).2)
    !! ["out"; "video.livp"] = Some (Archive [])
  /\ (pack_livp Demo.env Demo.tmp_jpeg Demo.tmp_mov
        ["out"; "video.livp"] "IMG_0001.JPG" Demo.crowded).1
     = Raise (OSError
         "[Errno 2] No such file or directory: 'tmp/livp_k3x0/livephoto.jpeg'").
Proof.
  destruct (pack_livp_partial_archive Demo.env Demo.tmp_jpeg Demo.tmp_mov
              ["out"; "video.livp"] "IMG_0001.JPG" Demo.crowded) as [H _].
  rewrite H; [| vm_compute; reflexivity | vm_compute; reflexivity
              | discriminate].
  split; vm_compute; reflexivity.
Defined.

(** ** The output names of one source *)

Lemma N_of_text_zero (t : string) :
  t <> "" -> N_of_text (String "0" t) = N_of_text t.
Proof.
  intros Ht. unfold N_of_text.
  destruct t as [|c t]; [congruence|].
  change (NilZero.uint_of_string (String "0" (String c t)))
    with (option_map Decimal.D0 (NilEmpty.uint_of_string (String c t))).
  change (NilZero.uint_of_string (String c t))
    with (NilEmpty.uint_of_string (String c t)).
  now destruct (NilEmpty.uint_of_string (String c t)).
Qed.

Lemma N_of_text_zeros (k : nat) (t : string) :
  t <> "" -> N_of_text (zeros k ++ t) = N_of_text t.
Proof.
  intros Ht. induction k as [|k IH]; [reflexivity|].
  simpl. rewrite N_of_text_zero; [exact IH|].
  destruct k; simpl; [exact Ht | discriminate].
Qed.

Lemma int_of_text_digits (s : string) :
  all_chars is_digit s = true ->
  int_of_text s = option_map Z.of_N (N_of_text s).
Proof.
  destruct s as [|c s]; [reflexivity|]. simpl all_chars.
  intros [Hc _]%andb_prop. revert Hc.
  destruct c as [[] [] [] [] [] [] [] []]; intros Hc;
    solve [reflexivity | discriminate Hc].
Qed.

Lemma zeros_digits (k : nat) : all_chars is_digit (zeros k) = true.
Proof. induction k; simpl; auto. Qed.

Lemma zfill_digits (w : nat) (n : N) :
  all_chars is_digit (zfill w (str_N n)) = true.
Proof.
  unfold zfill. rewrite all_chars_app, zeros_digits, str_N_digits.
  reflexivity.
Qed.

Lemma N_of_text_zfill (w : nat) (n : N) :
  N_of_text (zfill w (str_N n)) = Some n.
Proof.
  unfold zfill. rewrite N_of_text_zeros by apply str_N_nonempty.
  apply N_of_text_str_N.
Qed.

(** Reading back what [04d] printed gives the number printed. *)
Lemma int_of_text_fmt_04d (z : Z) : int_of_text (fmt_04d z) = Some z.
Proof.
  unfold fmt_04d. destruct (z <? 0) eqn:Hz.
  - apply Z.ltb_lt in Hz.
    change (int_of_text ("-" ++ zfill 3 (str_N (Z.to_N (- z)))))
      with (option_map (fun n => - Z.of_N n)
              (N_of_text (zfill 3 (str_N (Z.to_N (- z)))))).
    rewrite N_of_text_zfill. simpl. f_equal. lia.
  - apply Z.ltb_ge in Hz.
    rewrite int_of_text_digits by apply zfill_digits.
    rewrite N_of_text_zfill. simpl. f_equal. lia.
Qed.

Lemma fmt_04d_inj (z z' : Z) : fmt_04d z = fmt_04d z' -> z = z'.
Proof.
  intros H. pose proof (int_of_text_fmt_04d z) as Hz.
  rewrite H, int_of_text_fmt_04d in Hz. congruence.
Qed.

Lemma length_append (a b : string) :
  String.length (a ++ b) = (String.length a + String.length b)%nat.
Proof. induction a as [|c a IH]; simpl; [reflexivity | now rewrite IH]. Qed.

Lemma append_inj_r (a b c : string) : a ++ c = b ++ c -> a = b.
Proof.
  revert b. induction a as [|x a IH]; intros [|y b] H; simpl in H.
  - reflexivity.
  - apply (f_equal String.length) in H. simpl in H.
    rewrite length_append in H. lia.
  - apply (f_equal String.length) in H. simpl in H.
    rewrite length_append in H. lia.
  - injection H as -> H. f_equal. now apply IH.
Qed.

Lemma join_inj (p : Path.t) (a b : string) :
  Path.join p a = Path.join p b -> a = b.
Proof.
  unfold Path.join. intros H. apply app_inv_head in H. congruence.
Qed.

(** X7: the output names of one source, and where two sources meet.
    For one source the name with the index always differs from the name
    taken from the stem alone; two different indexes give two different
    names with index, and two different base names for the entries; the
    four-digit index can be read back from its text.  Across sources the
    names can coincide: a source whose stem is the stem of another one
    followed by [_] and the four digits of that one's index has, as the
    name taken from its stem alone, the other one's name with index. *)
Theorem output_names_of_one_source (src src' out_dir : Path.t)
    (index index' : Z) :
  indexed_path src out_dir index <> plain_path src out_dir
  /\ (index <> index' ->
      indexed_path src out_dir index <> indexed_path src out_dir index')
  /\ (index <> index' -> internal_base_of index <> internal_base_of index')
  /\ int_of_text (fmt_04d index) = Some index
  /\ (Path.stem src' = Path.stem src ++ "_" ++ fmt_04d index ->
      plain_path src' out_dir = indexed_path src out_dir index).
Proof.
  split; [|split; [|split; [|split]]].
  - unfold indexed_path, plain_path. intros H%join_inj.
    apply String.app_inj in H. discriminate H.
  - intros Hne H. apply Hne. unfold indexed_path in H.
    apply join_inj, String.app_inj in H.
    injection H as H. apply append_inj_r in H. now apply fmt_04d_inj.
  - intros Hne H. apply Hne. unfold internal_base_of in H.
    injection H as H. apply append_inj_r in H. now apply fmt_04d_inj.
  - apply int_of_text_fmt_04d.
  - intros Hs. unfold plain_path, indexed_path. rewrite Hs.
    now rewrite <- !append_assoc.
Qed.

Lemma output_names_of_one_source_witness :
  plain_path ["in"; "A"; "a_0003.mp4"] Demo.out
  = indexed_path ["in"; "C"; "a.mp4"] Demo.out 3
  /\ indexed_path ["in"; "C"; "a.mp4"] Demo.out 3 = ["out"; "a_0003.livp"].
Proof.
  destruct (output_names_of_one_source ["in"; "C"; "a.mp4"]
              ["in"; "A"; "a_0003.mp4"] Demo.out 3 3) as (_ & _ & _ & _ & H).
  split; [apply H; vm_compute; reflexivity | vm_compute; reflexivity].
Defined.

(** ** What a successful run gives *)

Section OneFileMore.

Context (E : Env).
Context (ffmpeg_path ffprobe_path exiftool_path : string).
Context (src out_dir : Path.t) (index : Z).
Context (cover_time max_duration : spec_float).
Context (fps max_width max_height : Z).

Lemma build_livp_ok_archive (st st' : State) (p : Path.t) :
  build_livp E ffmpeg_path ffprobe_path exiftool_path src out_dir index
    cover_time max_duration fps max_width max_height st = (Ok p, st') ->
  p = chosen_path src out_dir index (sys st)
  /\ (~ mkdtemp E (sys st) `prefix_of` p ->
      exists (i1 i2 : ZipInfo) (d1 d2 : string),
        files (sys st') !! p = Some (Archive [(i1, d1); (i2, d2)])
        /\ filename i1 = internal_base_of index ++ ".jpeg"
        /\ filename i2 = internal_base_of index ++ ".mov"
        /\ (forced i1 /\ external_attr i1 = 25165824 /\ versions_kept i1 d1)
        /\ (forced i2 /\ external_attr i2 = 25165824 /\ versions_kept i2 d2)).
Proof.
  rewrite build_livp_run. cbv zeta. rewrite stages_split.
  destruct (tool_stages _ _ _ _ _ _ _ _ _ _ _ _ (drew st)) as [[[]|e] st3];
    [|discriminate].
  rewrite pack_livp_cases. cbv zeta.
  destruct (entry_outcome E _ _ _ (internal_base_of index ++ ".jpeg"))
    as [[i1 d1]|e] eqn:H1; [|discriminate].
  destruct (entry_outcome E _ _ _ (internal_base_of index ++ ".mov"))
    as [[i2 d2]|e] eqn:H2; [|discriminate].
  cbn [fst snd]. intros [= <- <-]. split; [reflexivity|].
  intros Hp. exists i1, i2, d1, d2.
  rewrite cleanup_lookup by exact Hp.
  cbn [with_files sys set_sys set_files files].
  split; [apply lookup_insert_eq|].
  apply entry_outcome_inl in H1 as (_ & Hf1 & _ & _ & Hc1 & Hx1 & Hv1 & _).
  apply entry_outcome_inl in H2 as (_ & Hf2 & _ & _ & Hc2 & Hx2 & Hv2 & _).
  rewrite until_nul_id in Hf1 by (apply internal_name_not_nul; reflexivity).
  rewrite until_nul_id in Hf2 by (apply internal_name_not_nul; reflexivity).
  auto 10.
Qed.

Lemma build_livp_counts (st : State) :
  let st' := (build_livp E ffmpeg_path ffprobe_path exiftool_path src out_dir
                index cover_time max_duration fps max_width max_height st).2 in
  drawn st' = S (drawn st) /\ printed st' = printed st.
Proof.
  cbv zeta. rewrite build_livp_final_state, stages_split.
  pose proof (tool_stages_trace E ffmpeg_path ffprobe_path exiftool_path src
                cover_time max_duration fps max_width max_height
                (mkdtemp E (sys st)) (content_id_at E st) (drew st)) as Htr.
  cbv zeta in Htr.
  destruct (tool_stages _ _ _ _ _ _ _ _ _ _ _ _ (drew st)) as [[[]|e] st3];
    destruct Htr as (_ & _ & _ & Hd & Hp & _); cbn [fst snd] in *.
  - match goal with |- context [pack_livp E ?a ?b ?c ?d st3] =>
      pose proof (pack_livp_frame E a b c d st3) as (_ & Hd' & Hp');
      destruct (pack_livp E a b c d st3) as [r4 st4] end.
    cbn in *. now rewrite Hd', Hp', Hd, Hp.
  - cbn. now rewrite Hd, Hp.
Qed.

End OneFileMore.



(** X9: two sources with the same stem do not land on one output file.
    Once a run has returned [<stem>.livp] for the first (outside the
    temporary directory), any later run that starts from the state it
    left, however many lines were printed in between, chooses the name
    with its own index for a source of the same stem, and that name is
    not the file of the first. *)
Theorem same_stem_gets_indexed_name (E : Env)
    (ffmpeg_path ffprobe_path exiftool_path : string)
    (src src' out_dir : Path.t) (index index' : Z)
    (cover_time max_duration : spec_float)
    (fps max_width max_height : Z) (st st1 : State) (line : string) :
  build_livp E ffmpeg_path ffprobe_path exiftool_path src out_dir index
    cover_time max_duration fps max_width max_height st
  = (Ok (plain_path src out_dir), st1) ->
  ~ mkdtemp E (sys st) `prefix_of` plain_path src out_dir ->
  Path.stem src' = Path.stem src ->
  chosen_path src' out_dir index' (sys (print line st1))
  = indexed_path src' out_dir index'
  /\ indexed_path src' out_dir index' <> plain_path src out_dir.
Proof.
  intros Hrun Hfresh Hstem.
  destruct (build_livp_ok_archive _ _ _ _ _ _ _ _ _ _ _ _ _ _ _ Hrun)
    as [_ Harch].
  destruct (Harch Hfresh) as (i1 & i2 & d1 & d2 & Hf & _).
  assert (Hplain : plain_path src' out_dir = plain_path src out_dir)
    by (unfold plain_path; now rewrite Hstem).
  split.
  - unfold chosen_path. cbn [print sys]. rewrite Hplain, Hf.
    now rewrite bool_decide_eq_true_2 by eauto.
  - rewrite <- Hplain. unfold indexed_path, plain_path.
    intros H%join_inj. apply String.app_inj in H. discriminate H.
Qed.

Lemma same_stem_gets_indexed_name_witness :
  chosen_path ["in"; "sub"; "a.mov"] Demo.out 2
    (sys (print "Output: a.livp"
            (build_livp Demo.env "ffmpeg" "ffprobe" "exiftool"
               ["in"; "a.mp4"] Demo.out 1 float_0_5 float_2_9
               30 3840 2160 Demo.empty).2))
  = ["out"; "a_0002.livp"].
Proof.
  destruct (build_livp Demo.env "ffmpeg" "ffprobe" "exiftool"
              ["in"; "a.mp4"] Demo.out 1 float_0_5 float_2_9
              30 3840 2160 Demo.empty) as [r st1] eqn:Hrun.
  assert (Hr : (build_livp Demo.env "ffmpeg" "ffprobe" "exiftool"
                  ["in"; "a.mp4"] Demo.out 1 float_0_5 float_2_9
                  30 3840 2160 Demo.empty).1
               = Ok (plain_path ["in"; "a.mp4"] Demo.out))
    by (vm_compute; reflexivity).
  rewrite Hrun in Hr. cbn [fst] in Hr. subst r.
  destruct (same_stem_gets_indexed_name Demo.env "ffmpeg" "ffprobe" "exiftool"
              ["in"; "a.mp4"] ["in"; "sub"; "a.mov"] Demo.out 1 2
              float_0_5 float_2_9 30 3840 2160 Demo.empty st1
              "Output: a.livp" Hrun) as [H _].
  - intros [k Hk]. discriminate Hk.
  - reflexivity.
  - cbn [snd]. rewrite H. reflexivity.
Defined.

(** ** What a batch reports *)

Section BatchMore.

Context (E : Env).
Context (ffmpeg_path ffprobe_path exiftool_path : string).
Context (out_dir : Path.t).
Context (cover_time max_duration : spec_float).
Context (fps max_width max_height : Z).

Lemma report_ok_length (sources : list Path.t) (idx : Z) (lines : list string) :
  report_ok idx sources lines -> length lines = (2 * length sources)%nat.
Proof.
  revert idx lines. induction sources as [|src rest IH]; intros idx lines.
  - destruct lines; [reflexivity | intros []].
  - destruct lines as [|l1 [|l2 more]]; try (intros []; fail).
    intros (_ & _ & H). cbn [length]. rewrite (IH _ _ H). lia.
Qed.

Lemma batch_success_report (sources : list Path.t) (idx : Z) (st st' : State) :
  batch E ffmpeg_path ffprobe_path exiftool_path out_dir
    cover_time max_duration fps max_width max_height idx sources st = (0, st') ->
  exists lines : list string,
    printed st' = (printed st ++ lines)%list
    /\ report_ok idx sources lines
    /\ drawn st' = (drawn st + length sources)%nat.
Proof.
  revert idx st. induction sources as [|src rest IH]; intros idx st.
  - cbn [batch]. intros [= <-]. exists []. cbn [length report_ok].
    rewrite app_nil_r, Nat.add_0_r. auto.
  - cbn [batch].
    pose proof (build_livp_counts E ffmpeg_path ffprobe_path exiftool_path
                  src out_dir idx cover_time max_duration fps max_width
                  max_height (print ("Processing: " ++ Path.name src) st))
      as Hc. cbv zeta in Hc.
    destruct (build_livp _ _ _ _ _ _ _ _ _ _ _ _ _) as [[p|e] st1] eqn:Hb;
      [|discriminate].
    cbn [snd print drawn printed] in Hc. destruct Hc as [Hd Hp].
    intros Hrest. destruct (IH _ _ Hrest) as (lines & Hl & Hr & Hn).
    cbn [print printed drawn] in Hl, Hn.
    exists (processing src :: ("Output: " ++ Path.name p) :: lines).
    split; [|split].
    + rewrite Hl, Hp. unfold processing.
      now rewrite <- !app_assoc.
    + cbn [report_ok]. split; [reflexivity|]. split; [|exact Hr].
      destruct (build_livp_ok_archive _ _ _ _ _ _ _ _ _ _ _ _ _ _ _ Hb)
        as [-> _].
      unfold chosen_path, indexed_path, plain_path.
      destruct (bool_decide _); rewrite name_join; auto.
    + rewrite Hn, Hd. cbn [length]. lia.
Qed.

Lemma batch_failure_split (sources : list Path.t) (idx rc : Z)
    (st st' : State) :
  batch E ffmpeg_path ffprobe_path exiftool_path out_dir
    cover_time max_duration fps max_width max_height idx sources st
  = (rc, st') ->
  rc <> 0 ->
  rc = 1
  /\ exists (pre post : list Path.t) (src : Path.t) (e : exn)
            (st_k st_f : State),
      sources = (pre ++ src :: post)%list
      /\ batch E ffmpeg_path ffprobe_path exiftool_path out_dir
           cover_time max_duration fps max_width max_height idx pre st
         = (0, st_k)
      /\ build_livp E ffmpeg_path ffprobe_path exiftool_path src out_dir
           (idx + Z.of_nat (length pre)) cover_time max_duration
           fps max_width max_height (print (processing src) st_k)
         = (Raise e, st_f)
      /\ st' = print (failed src e) st_f.
Proof.
  revert idx st. induction sources as [|src rest IH]; intros idx st.
  - cbn [batch]. intros [= <- <-] Hrc. now destruct Hrc.
  - cbn [batch].
    destruct (build_livp _ _ _ _ _ _ _ _ _ _ _ _ _) as [[p|e] st1] eqn:Hb.
    + intros Hrest Hrc.
      destruct (IH _ _ Hrest Hrc)
        as (-> & pre & post & src' & e & st_k & st_f & -> & Hpre & Hf & ->).
      split; [reflexivity|].
      exists (src :: pre), post, src', e, st_k, st_f.
      split; [reflexivity|]. split; [|split; [|reflexivity]].
      * cbn [batch]. now rewrite Hb.
      * rewrite <- Hf. f_equal. cbn [length]. lia.
    + intros [= <- <-] _. split; [reflexivity|].
      exists [], rest, src, e, st, st1.
      split; [reflexivity|]. split; [reflexivity|].
      split; [|reflexivity].
      cbn [length]. rewrite Z.add_0_r. exact Hb.
Qed.

End BatchMore.

(** X10: when main returns 0 there was at least one source, every
    source was converted (one content identifier drawn for each), and
    what it printed is the line with the count followed, for each source
    in order, by the line that announces it and the line that names its
    output: the stem of the source with [.livp], or with the
    four-digit index before [.livp]. *)
Theorem main_success_report (E : Env)
    (ffmpeg_path ffprobe_path exiftool_path : string) (out_dir : Path.t)
    (cover_time max_duration : spec_float) (fps max_width max_height : Z)
    (sources : list Path.t) (st st' : State) :
  main E ffmpeg_path ffprobe_path exiftool_path out_dir
    cover_time max_duration fps max_width max_height sources st = (0, st') ->
  sources <> []
  /\ drawn st' = (drawn st + length sources)%nat
  /\ exists lines : list string,
       printed st' = (printed st ++ found sources :: lines)%list
       /\ report_ok 1 sources lines
       /\ length lines = (2 * length sources)%nat.
Proof.
  intros Hmain.
  assert (Hne : sources <> []) by (destruct sources; [discriminate | easy]).
  split; [exact Hne|].
  rewrite main_nonempty in Hmain by exact Hne.
  destruct (batch_success_report _ _ _ _ _ _ _ _ _ _ _ _ _ _ Hmain)
    as (lines & Hl & Hr & Hd).
  split; [exact Hd|]. exists lines.
  split; [|split; [exact Hr | exact (report_ok_length _ _ _ Hr)]].
  rewrite Hl. cbn [print printed]. now rewrite <- app_assoc.
Qed.

Lemma main_success_report_witness :
  exists st',
    demo_main [ ["in"; "a.mp4"]; ["in"; "sub"; "a.mov"] ] Demo.empty = (0, st')
    /\ printed st'
       = [ "Found 2 video file(s)."; "Processing: a.mp4"; "Output: a.livp";
           "Processing: a.mov"; "Output: a_0002.livp" ].
Proof.
  destruct (demo_main [ ["in"; "a.mp4"]; ["in"; "sub"; "a.mov"] ] Demo.empty)
    as [rc st'] eqn:Hrun.
  assert (Hrc : (demo_main [ ["in"; "a.mp4"]; ["in"; "sub"; "a.mov"] ]
                   Demo.empty).1 = 0) by (vm_compute; reflexivity).
  assert (Hpr : printed (demo_main [ ["in"; "a.mp4"]; ["in"; "sub"; "a.mov"] ]
                   Demo.empty).2
                = [ "Found 2 video file(s)."; "Processing: a.mp4";
                    "Output: a.livp"; "Processing: a.mov";
                    "Output: a_0002.livp" ]) by (vm_compute; reflexivity).
  rewrite Hrun in Hrc, Hpr. cbn [fst snd] in Hrc, Hpr. subst rc.
  destruct (main_success_report _ _ _ _ _ _ _ _ _ _ _ _ _ Hrun)
    as (_ & _ & lines & _ & _ & _).
  exists st'. split; [reflexivity | exact Hpr].
Defined.

(** X11: main never returns anything but 0 or 1, and a nonzero status
    has one of two causes.  Either no source was found, and the only
    thing done was to print so; or some source is the first on which
    build_livp raised: all sources before it were converted, the lines
    printed for them are followed by the line that announces the failed
    source and the line that reports the failure, one content
    identifier more than the sources before it was drawn, and nothing
    was printed for the sources after it. *)
Theorem main_failure_cause (E : Env)
    (ffmpeg_path ffprobe_path exiftool_path : string) (out_dir : Path.t)
    (cover_time max_duration : spec_float) (fps max_width max_height : Z)
    (sources : list Path.t) (rc : Z) (st st' : State) :
  main E ffmpeg_path ffprobe_path exiftool_path out_dir
    cover_time max_duration fps max_width max_height sources st = (rc, st') ->
  rc <> 0 ->
  rc = 1
  /\ ((sources = []
       /\ st' = print "No video files found in input folder." st)
      \/ exists (pre post : list Path.t) (src : Path.t) (e : exn)
                (st_k st_f : State) (lines : list string),
           sources = (pre ++ src :: post)%list
           /\ batch E ffmpeg_path ffprobe_path exiftool_path out_dir
                cover_time max_duration fps max_width max_height 1 pre
                (print (found sources) st) = (0, st_k)
           /\ build_livp E ffmpeg_path ffprobe_path exiftool_path src out_dir
                (1 + Z.of_nat (length pre)) cover_time max_duration
                fps max_width max_height (print (processing src) st_k)
              = (Raise e, st_f)
           /\ report_ok 1 pre lines
           /\ printed st'
              = (printed st ++ found sources :: lines
                   ++ [processing src; failed src e])%list
           /\ drawn st' = (drawn st + S (length pre))%nat).
Proof.
  intros Hmain Hrc. destruct sources as [|s0 rest].
  - cbn [main] in Hmain. injection Hmain as <- <-. split; [reflexivity|].
    left. split; reflexivity.
  - rewrite main_nonempty in Hmain by discriminate.
    destruct (batch_failure_split _ _ _ _ _ _ _ _ _ _ _ _ _ _ _ Hmain Hrc)
      as (-> & pre & post & src & e & st_k & st_f & Hs & Hpre & Hf & ->).
    split; [reflexivity|]. right.
    destruct (batch_success_report _ _ _ _ _ _ _ _ _ _ _ _ _ _ Hpre)
      as (lines & Hl & Hr & Hd).
    pose proof (build_livp_counts E ffmpeg_path ffprobe_path exiftool_path
                  src out_dir (1 + Z.of_nat (length pre)) cover_time
                  max_duration fps max_width max_height
                  (print (processing src) st_k)) as Hc.
    cbv zeta in Hc. rewrite Hf in Hc.
    cbn [snd print printed drawn] in Hc, Hl, Hd. destruct Hc as [Hcd Hcp].
    exists pre, post, src, e, st_k, st_f, lines.
    split; [exact Hs|]. split; [exact Hpre|]. split; [exact Hf|].
    split; [exact Hr|]. split.
    + cbn [print printed]. rewrite Hcp, Hl.
      rewrite <- !app_assoc. reflexivity.
    + cbn [print drawn]. rewrite Hcd, Hd. lia.
Qed.

Lemma main_failure_cause_witness :
  exists st',
    demo_main demo_sources Demo.empty = (1, st')
    /\ firstn 4 (printed st')
       = [ "Found 3 video file(s)."; "Processing: a.mp4"; "Output: a.livp";
           "Processing: bad.mp4" ].
Proof.
  destruct (demo_main demo_sources Demo.empty) as [rc st'] eqn:Hrun.
  assert (Hrc : (demo_main demo_sources Demo.empty).1 <> 0)
    by (vm_compute; discriminate).
  assert (Hpr : firstn 4 (printed (demo_main demo_sources Demo.empty).2)
                = [ "Found 3 video file(s)."; "Processing: a.mp4";
                    "Output: a.livp"; "Processing: bad.mp4" ])
    by (vm_compute; reflexivity).
  rewrite Hrun in Hrc, Hpr. cbn [fst snd] in Hrc, Hpr.
  destruct (main_failure_cause _ _ _ _ _ _ _ _ _ _ _ _ _ _ Hrun Hrc)
    as [-> _].
  exists st'. split; [reflexivity | exact Hpr].
Defined.

(** ** The arguments *)

Section ArgumentFacts.

Context (float : string -> option spec_float).

Lemma parse_float_blank (v : string) (d : spec_float) (l : string) :
  all_chars is_space v = true -> _parse_float float (Some v) d l = inl d.
Proof. intros H. unfold _parse_float. now rewrite (strip_blank _ H). Qed.

Lemma parse_int_blank (v : string) (d : Z) (l : string) :
  all_chars is_space v = true -> _parse_int float (Some v) d l = inl d.
Proof. intros H. unfold _parse_int. now rewrite (strip_blank _ H). Qed.

Lemma parse_float_cases (v : string) (d : spec_float) (l : string) :
  (accepts float false v = true
   /\ exists x, _parse_float float (Some v) d l = inl x)
  \/ (accepts float false v = false
      /\ truthy (strip v) = true
      /\ float (strip v) = None
      /\ _parse_float float (Some v) d l = inr (ValueError (must_be_a_number l))).
Proof.
  unfold accepts, _parse_float, must_be_a_number.
  destruct (truthy (strip v)); cbn [negb orb]; [|left; eauto].
  destruct (float (strip v)) as [x|]; [left; eauto | right; auto].
Qed.

Lemma parse_int_cases (v : string) (d : Z) (l : string) :
  (accepts float true v = true
   /\ exists z, _parse_int float (Some v) d l = inl z)
  \/ (accepts float true v = false
      /\ truthy (strip v) = true
      /\ (float (strip v) = None \/ float (strip v) = Some S754_nan)
      /\ _parse_int float (Some v) d l = inr (ValueError (must_be_a_number l)))
  \/ (accepts float true v = false
      /\ truthy (strip v) = true
      /\ (exists s, float (strip v) = Some (S754_infinity s))
      /\ _parse_int float (Some v) d l
         = inr (OverflowError "cannot convert float infinity to integer")).
Proof.
  unfold accepts, _parse_int, must_be_a_number.
  destruct (truthy (strip v)); cbn [negb orb]; [|left; eauto].
  destruct (float (strip v)) as [[s|s| |s m e]|]; cbn.
  - left; eauto.
  - right; right; eauto.
  - right; left; auto.
  - left; eauto.
  - right; left; auto.
Qed.

Lemma shiftl_truncates (m : positive) (e : Z) :
  let a := Z.shiftl (Zpos m) e in
  0 <= a
  /\ a * 2 ^ Z.max (- e) 0 <= Zpos m * 2 ^ Z.max e 0
     < (a + 1) * 2 ^ Z.max (- e) 0.
Proof.
  cbv zeta. destruct (Z.le_gt_cases 0 e) as [He|He].
  - rewrite Z.shiftl_mul_pow2 by exact He.
    rewrite (Z.max_r (- e) 0), (Z.max_l e 0) by lia.
    change (2 ^ 0) with 1. rewrite !Z.mul_1_r.
    assert (0 < 2 ^ e) by (apply Z.pow_pos_nonneg; lia). nia.
  - rewrite Z.shiftl_div_pow2 by lia.
    rewrite (Z.max_l (- e) 0), (Z.max_r e 0) by lia.
    change (2 ^ 0) with 1. rewrite Z.mul_1_r.
    assert (Hp : 0 < 2 ^ (- e)) by (apply Z.pow_pos_nonneg; lia).
    pose proof (Z.div_mod (Zpos m) (2 ^ (- e)) ltac:(lia)) as Hdm.
    pose proof (Z.mod_pos_bound (Zpos m) (2 ^ (- e)) Hp) as Hb.
    assert (0 <= Zpos m / 2 ^ (- e)) by (apply Z.div_pos; lia).
    split; [assumption|]. nia.
Qed.

End ArgumentFacts.

(** X12: an argument whose text is empty or white space only gets its
    default, 0.5, 2.9, 30, 3840 and 2160 in the order of the options,
    and [float] is not asked about it: when all five are blank the
    defaults are the values read whatever [float] would say, and
    whenever the arguments are read with success each blank one has its
    default. *)
Theorem blank_arguments_are_defaults
    (float : string -> option spec_float) (args : Args.t) :
  (all_chars is_space (Args.cover_time args) = true ->
   all_chars is_space (Args.max_duration args) = true ->
   all_chars is_space (Args.fps args) = true ->
   all_chars is_space (Args.max_width args) = true ->
   all_chars is_space (Args.max_height args) = true ->
   read_arguments float args
   = inl (mk_settings float_0_5 float_2_9 30 3840 2160))
  /\ forall s : settings,
       read_arguments float args = inl s ->
       (all_chars is_space (Args.cover_time args) = true ->
        the_cover_time s = float_0_5)
       /\ (all_chars is_space (Args.max_duration args) = true ->
           the_max_duration s = float_2_9)
       /\ (all_chars is_space (Args.fps args) = true -> the_fps s = 30)
       /\ (all_chars is_space (Args.max_width args) = true ->
           the_max_width s = 3840)
       /\ (all_chars is_space (Args.max_height args) = true ->
           the_max_height s = 2160).
Proof.
  split.
  - intros H1 H2 H3 H4 H5. unfold read_arguments.
    now rewrite !parse_float_blank, !parse_int_blank.
  - intros s. unfold read_arguments.
    destruct (_parse_float float (Some (Args.cover_time args)) _ _)
      as [x1|] eqn:E1; [|discriminate].
    destruct (_parse_float float (Some (Args.max_duration args)) _ _)
      as [x2|] eqn:E2; [|discriminate].
    destruct (_parse_int float (Some (Args.fps args)) _ _)
      as [z3|] eqn:E3; [|discriminate].
    destruct (_parse_int float (Some (Args.max_width args)) _ _)
      as [z4|] eqn:E4; [|discriminate].
    destruct (_parse_int float (Some (Args.max_height args)) _ _)
      as [z5|] eqn:E5; [|discriminate].
    intros [= <-]. cbn.
    repeat split; intros H.
    + rewrite parse_float_blank in E1 by exact H. congruence.
    + rewrite parse_float_blank in E2 by exact H. congruence.
    + rewrite parse_int_blank in E3 by exact H. congruence.
    + rewrite parse_int_blank in E4 by exact H. congruence.
    + rewrite parse_int_blank in E5 by exact H. congruence.
Qed.

Lemma blank_arguments_are_defaults_witness :
  read_arguments (fun _ => None)
    (Args.mk "in" "out" "" "  " (String "009" "") " " "")
  = inl (mk_settings float_0_5 float_2_9 30 3840 2160)
  /\ the_fps (mk_settings float_0_5 float_2_9 30 1920 1080) = 30.
Proof.
  split.
  - apply (proj1 (blank_arguments_are_defaults (fun _ => None)
             (Args.mk "in" "out" "" "  " (String "009" "") " " "")));
      reflexivity.
  - apply (proj2 (blank_arguments_are_defaults demo_float
             (Args.mk "in" "out" "0.5" "2.9" "" "1920" "1080"))
             (mk_settings float_0_5 float_2_9 30 1920 1080)).
    + vm_compute. reflexivity.
    + reflexivity.
Defined.

(** X13: an integer argument is read as a float and cut toward zero,
    not rounded: when [float] reads the text as a finite float of value
    [float_num / float_den], the integer [z] taken satisfies
    [|z| <= |value| < |z| + 1] and is not of the opposite sign.  Neither
    the default nor the name of the option plays a part, and no range
    is imposed: zero and negative values pass. *)
Theorem _parse_int_truncates (float : string -> option spec_float)
    (v : string) (default : Z) (label : string) (x : spec_float) :
  all_chars is_space v = false ->
  float (strip v) = Some x ->
  is_finite x = true ->
  exists z : Z,
    _parse_int float (Some v) default label = inl z
    /\ Z.abs z * float_den x <= Z.abs (float_num x)
       < (Z.abs z + 1) * float_den x
    /\ 0 <= z * float_num x.
Proof.
  intros Hv Hx Hfin. unfold _parse_int.
  rewrite truthy_strip, Hv, Hx. cbn [negb].
  destruct x as [s|s| |s m e]; try discriminate Hfin; cbn.
  - exists 0. split; [reflexivity|]. lia.
  - pose proof (shiftl_truncates m e) as [Ha Hb].
    assert (Hp : 0 < 2 ^ Z.max e 0) by (apply Z.pow_pos_nonneg; lia).
    exists (if s then - Z.shiftl (Zpos m) e else Z.shiftl (Zpos m) e).
    split; [reflexivity|].
    destruct s.
    + rewrite Z.abs_opp, (Z.abs_eq _ Ha).
      replace (Z.abs (-1 * (Zpos m * 2 ^ Z.max e 0)))
        with (Zpos m * 2 ^ Z.max e 0) by lia.
      split; [exact Hb | nia].
    + rewrite (Z.abs_eq _ Ha).
      replace (Z.abs (1 * (Zpos m * 2 ^ Z.max e 0)))
        with (Zpos m * 2 ^ Z.max e 0) by lia.
      split; [exact Hb | nia].
Qed.

Lemma _parse_int_truncates_witness :
  _parse_int demo_float (Some " 29.97 ") 30 "--fps" = inl 29
  /\ _parse_int demo_float (Some "-0.75") 30 "--fps" = inl 0.
Proof.
  split.
  - destruct (_parse_int_truncates demo_float " 29.97 " 30 "--fps"
                (S754_finite false 1054475631502295 (-45)))
      as (z & Hz & _); [reflexivity | reflexivity | reflexivity |].
    rewrite Hz. f_equal.
    assert (H : _parse_int demo_float (Some " 29.97 ") 30 "--fps" = inl 29)
      by (vm_compute; reflexivity).
    congruence.
  - destruct (_parse_int_truncates demo_float "-0.75" 30 "--fps"
                (S754_finite true 3 (-2)))
      as (z & Hz & _); [reflexivity | reflexivity | reflexivity |].
    rewrite Hz. f_equal.
    assert (H : _parse_int demo_float (Some "-0.75") 30 "--fps" = inl 0)
      by (vm_compute; reflexivity).
    congruence.
Defined.

(** X14: the arguments are read with success exactly when each of the
    five texts is blank or read by [float], as a finite float where an
    integer is wanted.  When the argument phase returns, the status is
    2, nothing was done but to print one line, and the line names the
    first argument in the order of reading that is not accepted; that
    argument is a text [float] rejects, or an integer argument read as
    not-a-number. *)
Theorem argument_error_report (float : string -> option spec_float)
    (args : Args.t) (st : State) :
  ((exists s, read_arguments float args = inl s)
   <-> forallb (fun a => accepts float a.2 a.1.2) (argument_table args) = true)
  /\ forall (code : Z) (st' : State),
       arguments_phase float args st = (Returned code, st') ->
       code = 2
       /\ exists (pre post : list (string * string * bool))
                 (label text : string) (is_int : bool),
            argument_table args = (pre ++ (label, text, is_int) :: post)%list
            /\ forallb (fun a => accepts float a.2 a.1.2) pre = true
            /\ accepts float is_int text = false
            /\ all_chars is_space text = false
            /\ (float (strip text) = None
                \/ (is_int = true /\ float (strip text) = Some S754_nan))
            /\ st' = print ("Argument error: " ++ must_be_a_number label) st.
Proof.
  unfold arguments_phase, read_arguments, argument_table.
  cbn [forallb fst snd].
  destruct (parse_float_cases float (Args.cover_time args) float_0_5
              "--cover-time") as [[A1 [x1 P1]]|(A1 & T1 & F1 & P1)];
    rewrite P1, A1; cbn [andb].
  2:{ split; [split; [intros [s Hs]; discriminate Hs | discriminate]|].
      intros code st' [= <- <-]. split; [reflexivity|].
      eexists [], _, _, _, _. split; [reflexivity|].
      rewrite truthy_strip in T1. apply negb_true_iff in T1. auto 10. }
  destruct (parse_float_cases float (Args.max_duration args) float_2_9
              "--max-duration") as [[A2 [x2 P2]]|(A2 & T2 & F2 & P2)];
    rewrite P2, A2; cbn [andb].
  2:{ split; [split; [intros [s Hs]; discriminate Hs | discriminate]|].
      intros code st' [= <- <-]. split; [reflexivity|].
      eexists [_], _, _, _, _. split; [reflexivity|].
      cbn [forallb fst snd]. rewrite A1.
      rewrite truthy_strip in T2. apply negb_true_iff in T2. auto 10. }
  destruct (parse_int_cases float (Args.fps args) 30 "--fps")
    as [[A3 [z3 P3]]|[(A3 & T3 & F3 & P3)|(A3 & T3 & F3 & P3)]];
    rewrite P3, A3; cbn [andb].
  2:{ split; [split; [intros [s Hs]; discriminate Hs | discriminate]|].
      intros code st' [= <- <-]. split; [reflexivity|].
      eexists [_; _], _, _, _, _. split; [reflexivity|].
      cbn [forallb fst snd]. rewrite A1, A2.
      rewrite truthy_strip in T3. apply negb_true_iff in T3.
      destruct F3; auto 10. }
  2:{ split; [split; [intros [s Hs]; discriminate Hs | discriminate]|].
      intros code st' H. discriminate H. }
  destruct (parse_int_cases float (Args.max_width args) 3840 "--max-width")
    as [[A4 [z4 P4]]|[(A4 & T4 & F4 & P4)|(A4 & T4 & F4 & P4)]];
    rewrite P4, A4; cbn [andb].
  2:{ split; [split; [intros [s Hs]; discriminate Hs | discriminate]|].
      intros code st' [= <- <-]. split; [reflexivity|].
      eexists [_; _; _], _, _, _, _. split; [reflexivity|].
      cbn [forallb fst snd]. rewrite A1, A2, A3.
      rewrite truthy_strip in T4. apply negb_true_iff in T4.
      destruct F4; auto 10. }
  2:{ split; [split; [intros [s Hs]; discriminate Hs | discriminate]|].
      intros code st' H. discriminate H. }
  destruct (parse_int_cases float (Args.max_height args) 2160 "--max-height")
    as [[A5 [z5 P5]]|[(A5 & T5 & F5 & P5)|(A5 & T5 & F5 & P5)]];
    rewrite P5, A5; cbn [andb].
  2:{ split; [split; [intros [s Hs]; discriminate Hs | discriminate]|].
      intros code st' [= <- <-]. split; [reflexivity|].
      eexists [_; _; _; _], _, _, _, _. split; [reflexivity|].
      cbn [forallb fst snd]. rewrite A1, A2, A3, A4.
      rewrite truthy_strip in T5. apply negb_true_iff in T5.
      destruct F5; auto 10. }
  2:{ split; [split; [intros [s Hs]; discriminate Hs | discriminate]|].
      intros code st' H. discriminate H. }
  split; [split; eauto|].
  intros code st' H. discriminate H.
Qed.

Lemma argument_error_report_witness :
  (arguments_phase demo_float
     (Args.mk "in" "out" "0.5" "2.9" "thirty" "wide" "1080") Demo.empty).1
  = Returned 2
  /\ printed (arguments_phase demo_float
       (Args.mk "in" "out" "0.5" "2.9" "thirty" "wide" "1080") Demo.empty).2
     = ["Argument error: --fps must be a number."].
Proof.
  destruct (arguments_phase demo_float
              (Args.mk "in" "out" "0.5" "2.9" "thirty" "wide" "1080")
              Demo.empty) as [o st'] eqn:Hrun.
  assert (Ho : (arguments_phase demo_float
              (Args.mk "in" "out" "0.5" "2.9" "thirty" "wide" "1080")
              Demo.empty).1 = Returned 2) by (vm_compute; reflexivity).
  assert (Hp : printed (arguments_phase demo_float
              (Args.mk "in" "out" "0.5" "2.9" "thirty" "wide" "1080")
              Demo.empty).2 = ["Argument error: --fps must be a number."])
    by (vm_compute; reflexivity).
  rewrite Hrun in Ho, Hp. cbn [fst snd] in Ho, Hp. subst o.
  destruct (proj2 (argument_error_report demo_float _ Demo.empty) 2 st' Hrun)
    as [_ _].
  split; [reflexivity | exact Hp].
Defined.

(** X15: what is not a finite number is not treated alike for the two
    kinds of argument.  For the two times (cover time, maximal
    duration) an infinity or a not-a-number that [float] reads is
    taken as it is, and its [.3f] text handed to the transcoder later is
    not a number with three decimals.  For an integer argument a
    not-a-number is reported like a text that is no number, with status
    2, but an infinity raises an OverflowError that the argument phase
    does not catch: it leaves [main], nothing is printed and no status
    is returned. *)
Theorem non_finite_arguments (float : string -> option spec_float)
    (args : Args.t) (st : State) (x : spec_float) :
  is_finite x = false ->
  (float (strip (Args.cover_time args)) = Some x ->
   all_chars is_space (Args.cover_time args) = false ->
   _parse_float float (Some (Args.cover_time args)) float_0_5 "--cover-time"
   = inl x
   /\ three_decimals (fmt_3f x) = false
   /\ forall s, read_arguments float args = inl s -> the_cover_time s = x)
  /\ (float (strip (Args.fps args)) = Some x ->
      all_chars is_space (Args.fps args) = false ->
      accepts float false (Args.cover_time args) = true ->
      accepts float false (Args.max_duration args) = true ->
      arguments_phase float args st
      = match x with
        | S754_nan =>
            (Returned 2, print "Argument error: --fps must be a number." st)
        | _ =>
            (Escaped
               (OverflowError "cannot convert float infinity to integer"), st)
        end).
Proof.
  intros Hx. split.
  - intros Hf Hv.
    assert (Hp : _parse_float float (Some (Args.cover_time args)) float_0_5
                   "--cover-time" = inl x).
    { unfold _parse_float. now rewrite truthy_strip, Hv, Hf. }
    split; [exact Hp|]. split.
    + now rewrite fmt_3f_three_decimals.
    + intros s. unfold read_arguments. rewrite Hp.
      repeat match goal with
             | |- context [match ?t with inl _ => _ | inr _ => _ end] =>
                 destruct t; [|discriminate]
             end.
      now intros [= <-].
  - intros Hf Hv A1 A2. unfold arguments_phase, read_arguments.
    destruct (parse_float_cases float (Args.cover_time args) float_0_5
                "--cover-time") as [[_ [x1 P1]]|(A1' & _)]; [|congruence].
    destruct (parse_float_cases float (Args.max_duration args) float_2_9
                "--max-duration") as [[_ [x2 P2]]|(A2' & _)]; [|congruence].
    rewrite P1, P2. unfold _parse_int.
    rewrite truthy_strip, Hv, Hf. cbn [negb].
    destruct x as [s|s| |s m e]; try discriminate Hx; reflexivity.
Qed.

Lemma non_finite_arguments_witness :
  arguments_phase demo_float
    (Args.mk "in" "out" "nan" "inf" "inf" "" "") Demo.empty
  = (Escaped (OverflowError "cannot convert float infinity to integer"),
     Demo.empty)
  /\ arguments_phase demo_float
       (Args.mk "in" "out" "nan" "inf" "nan" "" "") Demo.empty
     = (Returned 2,
        print "Argument error: --fps must be a number." Demo.empty)
  /\ _parse_float demo_float (Some "nan") float_0_5 "--cover-time"
     = inl S754_nan.
Proof.
  split; [|split].
  - apply (proj2 (non_finite_arguments demo_float
                    (Args.mk "in" "out" "nan" "inf" "inf" "" "") Demo.empty
                    (S754_infinity false) eq_refl)); reflexivity.
  - apply (proj2 (non_finite_arguments demo_float
                    (Args.mk "in" "out" "nan" "inf" "nan" "" "") Demo.empty
                    S754_nan eq_refl)); reflexivity.
  - apply (proj1 (non_finite_arguments demo_float
                    (Args.mk "in" "out" "nan" "inf" "nan" "" "") Demo.empty
                    S754_nan eq_refl)); reflexivity.
Defined.

(** ** The order of paths *)

Import Discovery.

Lemma ascii_compare_refl (a : ascii) : Ascii.compare a a = Eq.
Proof. unfold Ascii.compare. apply N.compare_refl. Qed.

Lemma ascii_compare_lt_trans (a b c : ascii) :
  Ascii.compare a b = Lt -> Ascii.compare b c = Lt -> Ascii.compare a c = Lt.
Proof.
  unfold Ascii.compare. rewrite !N.compare_lt_iff. apply N.lt_trans.
Qed.

Lemma string_compare_refl (s : string) : String.compare s s = Eq.
Proof.
  induction s as [|a s IH]; [reflexivity|].
  cbn. now rewrite ascii_compare_refl.
Qed.

Lemma string_compare_lt_trans (a b c : string) :
  String.compare a b = Lt -> String.compare b c = Lt ->
  String.compare a c = Lt.
Proof.
  revert b c. induction a as [|x a IH]; intros [|y b] [|z c]; cbn;
    try easy.
  destruct (Ascii.compare x y) eqn:Hxy; try discriminate;
    destruct (Ascii.compare y z) eqn:Hyz; try discriminate.
  - apply Ascii.compare_eq_iff in Hxy, Hyz. subst.
    rewrite ascii_compare_refl. apply IH.
  - apply Ascii.compare_eq_iff in Hxy. subst. now rewrite Hyz.
  - apply Ascii.compare_eq_iff in Hyz. subst. now rewrite Hxy.
  - now rewrite (ascii_compare_lt_trans _ _ _ Hxy Hyz).
Qed.

Lemma path_compare_eq (p q : Path.t) : path_compare p q = Eq -> p = q.
Proof.
  revert q. induction p as [|a p IH]; intros [|b q]; cbn; try easy.
  destruct (String.compare a b) eqn:Hab; try discriminate.
  apply String.compare_eq_iff in Hab. intros H%IH. now subst.
Qed.

Lemma path_compare_refl (p : Path.t) : path_compare p p = Eq.
Proof.
  induction p as [|a p IH]; [reflexivity|].
  cbn. now rewrite string_compare_refl.
Qed.

Lemma path_compare_antisym (p q : Path.t) :
  path_compare p q = CompOpp (path_compare q p).
Proof.
  revert q. induction p as [|a p IH]; intros [|b q]; cbn; try easy.
  rewrite (String.compare_antisym a b).
  destruct (String.compare b a); cbn; auto.
Qed.

Lemma path_compare_lt_trans (p q r : Path.t) :
  path_compare p q = Lt -> path_compare q r = Lt -> path_compare p r = Lt.
Proof.
  revert q r. induction p as [|a p IH]; intros [|b q] [|c r]; cbn;
    try easy.
  destruct (String.compare a b) eqn:Hab; try discriminate;
    destruct (String.compare b c) eqn:Hbc; try discriminate.
  - apply String.compare_eq_iff in Hab, Hbc. subst.
    rewrite string_compare_refl. apply IH.
  - apply String.compare_eq_iff in Hab. subst. now rewrite Hbc.
  - apply String.compare_eq_iff in Hbc. subst. now rewrite Hab.
  - now rewrite (string_compare_lt_trans _ _ _ Hab Hbc).
Qed.

#[local] Instance path_le_trans : Transitive path_le.
Proof.
  intros p q r Hpq Hqr. unfold path_le in *.
  destruct (path_compare p q) eqn:H1; [| |congruence].
  - apply path_compare_eq in H1. now subst.
  - destruct (path_compare q r) eqn:H2; [| |congruence].
    + apply path_compare_eq in H2. subst. now rewrite H1.
    + now rewrite (path_compare_lt_trans _ _ _ H1 H2).
Qed.

#[local] Instance path_le_antisym : AntiSymm (=) path_le.
Proof.
  intros p q Hpq Hqp. unfold path_le in *.
  rewrite (path_compare_antisym q p) in Hqp.
  destruct (path_compare p q) eqn:H; cbn in Hqp; try congruence.
  now apply path_compare_eq.
Qed.

Lemma not_ltb_le (x y : Path.t) : path_ltb x y = false -> path_le y x.
Proof.
  unfold path_ltb, path_le. rewrite (path_compare_antisym y x).
  destruct (path_compare x y); cbn; congruence.
Qed.

Lemma ltb_le (x y : Path.t) : path_ltb x y = true -> path_le x y.
Proof. unfold path_ltb, path_le. destruct (path_compare x y); congruence. Qed.

(** ** Sorting *)

Lemma insert_perm (x : Path.t) (l : list Path.t) : insert x l ≡ₚ x :: l.
Proof.
  induction l as [|y r IH]; cbn; [reflexivity|].
  destruct (path_ltb x y); [reflexivity|].
  rewrite IH. apply Permutation_swap.
Qed.

Lemma fold_insert_perm (l acc : list Path.t) :
  fold_left (fun a x => insert x a) l acc ≡ₚ (l ++ acc)%list.
Proof.
  revert acc. induction l as [|x l IH]; intros acc; cbn; [reflexivity|].
  rewrite IH, insert_perm. now rewrite Permutation_middle.
Qed.

Lemma sorted_perm (l : list Path.t) : sorted l ≡ₚ l.
Proof. unfold sorted. now rewrite fold_insert_perm, app_nil_r. Qed.

Lemma insert_hd (x a : Path.t) (l : list Path.t) :
  path_le a x -> HdRel path_le a l -> HdRel path_le a (insert x l).
Proof.
  intros Hax Hl. destruct l as [|y r]; cbn; [now constructor|].
  destruct (path_ltb x y); constructor; [assumption|].
  now inversion Hl.
Qed.

Lemma insert_sorted (x : Path.t) (l : list Path.t) :
  Sorted path_le l -> Sorted path_le (insert x l).
Proof.
  induction 1 as [|y r Hr IH Hhd]; cbn; [repeat constructor|].
  destruct (path_ltb x y) eqn:Hxy.
  - constructor; [now constructor|]. constructor. now apply ltb_le.
  - constructor; [exact IH|]. apply insert_hd; [|exact Hhd].
    now apply not_ltb_le.
Qed.

Lemma fold_insert_sorted (l acc : list Path.t) :
  Sorted path_le acc ->
  Sorted path_le (fold_left (fun a x => insert x a) l acc).
Proof.
  revert acc. induction l as [|x l IH]; intros acc H; cbn; [exact H|].
  apply IH, insert_sorted, H.
Qed.

Lemma sorted_sorted (l : list Path.t) : Sorted path_le (sorted l).
Proof. apply fold_insert_sorted. constructor. Qed.

Lemma sorted_unique (l1 l2 : list Path.t) :
  l1 ≡ₚ l2 -> sorted l1 = sorted l2.
Proof.
  intros H. apply (Sorted_unique path_le); try apply sorted_sorted.
  now rewrite !sorted_perm.
Qed.

(** ** Names, stems and suffixes *)

Lemma append_empty_r (s : string) : s ++ "" = s.
Proof. induction s as [|c s IH]; cbn; [reflexivity | now rewrite IH]. Qed.

Lemma substring_all (s : string) : String.substring 0 (String.length s) s = s.
Proof. induction s as [|c s IH]; cbn; [reflexivity | now rewrite IH]. Qed.

Lemma substring_split (s : string) (i : nat) :
  (i <= String.length s)%nat ->
  String.substring 0 i s ++ String.substring i (String.length s - i) s = s.
Proof.
  revert i. induction s as [|c s IH]; intros [|i] Hi; cbn in *.
  - reflexivity.
  - lia.
  - now rewrite substring_all.
  - rewrite IH by lia. reflexivity.
Qed.

Lemma substring_app_l (a b : string) :
  String.substring 0 (String.length a) (a ++ b) = a.
Proof.
  induction a as [|c a IH]; cbn; [now destruct b | now rewrite IH].
Qed.

Lemma substring_app_r (a b : string) :
  String.substring (String.length a) (String.length b) (a ++ b) = b.
Proof. induction a as [|c a IH]; cbn; [apply substring_all | exact IH]. Qed.

Lemma rfind_no_dot (s : string) (i : nat) (f : option nat) :
  all_chars no_dot s = true -> Path.rfind_dot s i f = f.
Proof.
  revert i f. induction s as [|c s IH]; intros i f; cbn; [reflexivity|].
  intros [Hc Hs]%andb_prop. rewrite IH by exact Hs.
  unfold no_dot in Hc. apply negb_true_iff in Hc. now rewrite Hc.
Qed.

Lemma rfind_last_dot (a e : string) (i : nat) (f : option nat) :
  all_chars no_dot e = true ->
  Path.rfind_dot (a ++ String "." e) i f = Some (i + String.length a)%nat.
Proof.
  revert i f. induction a as [|c a IH]; intros i f He; cbn.
  - rewrite rfind_no_dot by exact He. f_equal. lia.
  - rewrite IH by exact He. f_equal. lia.
Qed.

Lemma name_stem_suffix (p : Path.t) :
  Path.name p = Path.stem p ++ suffix p.
Proof.
  unfold Path.stem, suffix. cbv zeta.
  destruct (Path.rfind_dot (Path.name p) 0 None) as [i|];
    [|now rewrite append_empty_r].
  destruct ((0 <? i) && (i <? String.length (Path.name p) - 1))%nat eqn:Hc;
    [|now rewrite append_empty_r].
  apply andb_prop in Hc as [_ Hi%Nat.ltb_lt].
  symmetry. apply substring_split. lia.
Qed.

Lemma suffix_needs_stem (p : Path.t) : suffix p <> "" -> Path.stem p <> "".
Proof.
  unfold Path.stem, suffix. cbv zeta.
  destruct (Path.rfind_dot (Path.name p) 0 None) as [i|]; [|congruence].
  destruct ((0 <? i) && (i <? String.length (Path.name p) - 1))%nat eqn:Hc;
    [|congruence].
  apply andb_prop in Hc as [Hi%Nat.ltb_lt _].
  destruct i as [|i]; [lia|].
  destruct (Path.name p); cbn; congruence.
Qed.

Lemma stem_suffix_of_name (p : Path.t) (base e : string) :
  Path.name p = base ++ String "." e ->
  base <> "" -> e <> "" -> all_chars no_dot e = true ->
  Path.stem p = base /\ suffix p = String "." e.
Proof.
  intros Hn Hb He Hd. unfold Path.stem, suffix. cbv zeta.
  rewrite Hn, rfind_last_dot by exact Hd. cbn [Nat.add].
  rewrite length_append. cbn [String.length].
  assert (Hc : ((0 <? String.length base)
                && (String.length base
                    <? String.length base + S (String.length e) - 1))%nat
               = true).
  { destruct base; [congruence|]. destruct e; [congruence|].
    cbn [String.length]. apply andb_true_intro.
    split; apply Nat.ltb_lt; lia. }
  rewrite Hc. split; [apply substring_app_l|].
  replace (String.length base + S (String.length e) - String.length base)%nat
    with (String.length (String "." e)) by (cbn [String.length]; lia).
  apply substring_app_r.
Qed.

Lemma lower_char_dot (c : ascii) : no_dot (lower_char c) = no_dot c.
Proof. destruct c as [[] [] [] [] [] [] [] []]; reflexivity. Qed.

Lemma lower_no_dot (s : string) :
  all_chars no_dot (lower s) = all_chars no_dot s.
Proof.
  induction s as [|c s IH]; cbn; [reflexivity|].
  now rewrite lower_char_dot, IH.
Qed.

Lemma lower_char_is_dot (c : ascii) : lower_char c = "."%char -> c = "."%char.
Proof.
  intros H. pose proof (lower_char_dot c) as Hd. rewrite H in Hd.
  unfold no_dot in Hd. cbn in Hd. symmetry in Hd.
  apply negb_false_iff in Hd. now apply Ascii.eqb_eq in Hd.
Qed.

Lemma extension_shape (e : string) :
  lower e ∈ VIDEO_EXTS ->
  exists r, e = String "." r /\ r <> "" /\ all_chars no_dot r = true.
Proof.
  unfold VIDEO_EXTS. rewrite !elem_of_union, !elem_of_singleton.
  destruct e as [|c r]; cbn [lower]; [intuition discriminate|].
  intros H. exists r.
  assert (Hc : lower_char c = "."%char) by (intuition congruence).
  assert (Hr : lower r <> "" /\ all_chars no_dot (lower r) = true).
  { destruct H as [[[[[H|H]|H]|H]|H]|H]; injection H as _ ->;
      (split; [discriminate | reflexivity]). }
  apply lower_char_is_dot in Hc. subst c.
  destruct Hr as [Hne Hnd]. rewrite lower_no_dot in Hnd.
  split; [reflexivity|]. split; [|exact Hnd].
  intros ->. now apply Hne.
Qed.

(** X16: a path is taken for a video exactly when its name is a
    non-empty base followed by one of the six extensions in any mix of
    capital and small letters; only the last extension counts.  The name
    is always the stem followed by the suffix, and a name that has a dot
    at its start only, like [.mp4], has no suffix and is never a
    video. *)
Theorem is_video_by_name (p : Path.t) :
  (is_video p = true
   <-> exists base ext : string,
         Path.name p = base ++ ext /\ base <> ""
         /\ lower ext ∈ VIDEO_EXTS)
  /\ Path.name p = Path.stem p ++ suffix p
  /\ (forall r : string,
        Path.name p = String "." r -> all_chars no_dot r = true ->
        is_video p = false).
Proof.
  split; [|split].
  - unfold is_video. rewrite bool_decide_eq_true. split.
    + intros H. exists (Path.stem p), (suffix p).
      split; [apply name_stem_suffix|]. split; [|exact H].
      apply suffix_needs_stem. intros Hs. rewrite Hs in H.
      apply extension_shape in H as (r & Hr & _). discriminate Hr.
    + intros (base & ext & Hn & Hb & He).
      destruct (extension_shape _ He) as (r & -> & Hr & Hd).
      destruct (stem_suffix_of_name p base r Hn Hb Hr Hd) as [_ ->].
      exact He.
  - apply name_stem_suffix.
  - intros r Hn Hd. unfold is_video, suffix. cbv zeta. rewrite Hn.
    cbn [Path.rfind_dot]. rewrite rfind_no_dot by exact Hd.
    reflexivity.
Qed.

Lemma is_video_by_name_witness :
  is_video ["in"; "holiday.2024.MoV"] = true
  /\ is_video ["in"; ".mp4"] = false.
Proof.
  split.
  - apply (proj1 (is_video_by_name ["in"; "holiday.2024.MoV"])).
    exists "holiday.2024", ".MoV".
    split; [reflexivity|]. split; [discriminate|].
    vm_compute. reflexivity.
  - apply (proj2 (proj2 (is_video_by_name ["in"; ".mp4"])) "mp4");
      reflexivity.
Defined.

(** ** The sources found *)

Lemma sorted_In (l : list Path.t) (p : Path.t) : In p (sorted l) <-> In p l.
Proof.
  split; apply Permutation_in; [|symmetry]; apply sorted_perm.
Qed.

Lemma rglob_In (input_dir : Path.t) (s : Sys) (p : Path.t) :
  In p (rglob input_dir s)
  <-> (input_dir `prefix_of` p /\ input_dir <> p)
      /\ is_Some (files s !! p).
Proof.
  unfold rglob. rewrite filter_In, bool_decide_eq_true, in_map_iff.
  split.
  - intros [([q c] & <- & Hin) Hp]. split; [exact Hp|].
    apply list_elem_of_In, elem_of_map_to_list in Hin. cbn. eauto.
  - intros [Hp [c Hc]]. split; [|exact Hp].
    exists (p, c). split; [reflexivity|].
    now apply list_elem_of_In, elem_of_map_to_list.
Qed.

Lemma rglob_NoDup (input_dir : Path.t) (s : Sys) : NoDup (rglob input_dir s).
Proof.
  unfold rglob. apply NoDup_ListNoDup, List.NoDup_filter, NoDup_ListNoDup.
  exact (NoDup_fst_map_to_list (files s)).
Qed.

Lemma strongly_sorted_filter {A : Type} (R : A -> A -> Prop)
    (f : A -> bool) (l : list A) :
  StronglySorted R l -> StronglySorted R (List.filter f l).
Proof.
  induction 1 as [|x l Hl IH Hx]; cbn; [constructor|].
  destruct (f x); [|exact IH].
  constructor; [exact IH|].
  apply List.Forall_forall. intros y [Hy _]%filter_In.
  rewrite List.Forall_forall in Hx. now apply Hx.
Qed.

Lemma strongly_sorted_strict (l : list Path.t) :
  StronglySorted path_le l -> NoDup l ->
  StronglySorted (fun p q => path_compare p q = Lt) l.
Proof.
  induction 1 as [|x l Hl IH Hx]; intros Hnd; [constructor|].
  apply NoDup_cons in Hnd as [Hin Hnd].
  constructor; [now apply IH|].
  rewrite List.Forall_forall in Hx. apply List.Forall_forall.
  intros y Hy. specialize (Hx y Hy). unfold path_le in Hx.
  destruct (path_compare x y) eqn:Hc; try congruence.
  apply path_compare_eq in Hc. subst y.
  destruct Hin. now apply list_elem_of_In.
Qed.

(** X17: the sources main works on are exactly the files below the
    input folder, at any depth, whose suffix is a video extension; no
    file outside the folder and not the folder itself.  They come in
    strictly increasing order of paths, so that none comes twice and the
    index of a source is its rank in that order. *)
Theorem discover_finds_the_videos (input_dir : Path.t) (s : Sys) :
  (forall p : Path.t,
     In p (discover input_dir s)
     <-> (input_dir `prefix_of` p /\ input_dir <> p)
         /\ is_Some (files s !! p)
         /\ is_video p = true)
  /\ StronglySorted (fun p q => path_compare p q = Lt) (discover input_dir s)
  /\ NoDup (discover input_dir s).
Proof.
  assert (Hnd : NoDup (discover input_dir s)).
  { unfold discover, select.
    apply NoDup_ListNoDup, List.NoDup_filter, NoDup_ListNoDup.
    rewrite sorted_perm. apply rglob_NoDup. }
  split; [|split; [|exact Hnd]].
  - intros p. unfold discover, select.
    rewrite filter_In, sorted_In, rglob_In, andb_true_iff.
    unfold is_file. rewrite bool_decide_eq_true. tauto.
  - apply strongly_sorted_strict; [|exact Hnd].
    unfold discover, select. apply strongly_sorted_filter.
    apply Sorted_StronglySorted; [apply path_le_trans | apply sorted_sorted].
Qed.

(** X18: the order in which the walk of the input folder yields its
    entries has no effect: two listings with the same entries give the
    same list of sources, in the same order, hence the same indexes. *)
Theorem select_any_walk_order (l1 l2 : list Path.t) (s : Sys) :
  l1 ≡ₚ l2 -> select l1 s = select l2 s.
Proof.
  intros H. unfold select. now rewrite (sorted_unique l1 l2 H).
Qed.

Lemma select_any_walk_order_witness :
  select [ ["in"; "b.MP4"]; ["in"; "notes.txt"]; ["in"; "a"; "z.mov"];
           ["in"; "B.mkv"] ] folder
  = [ ["in"; "B.mkv"]; ["in"; "a"; "z.mov"]; ["in"; "b.MP4"] ].
Proof.
  rewrite (select_any_walk_order _
             [ ["in"; "B.mkv"]; ["in"; "a"; "z.mov"]; ["in"; "b.MP4"];
               ["in"; "notes.txt"] ] folder).
  - vm_compute. reflexivity.
  - apply (Permutation_cons_app
             [ ["in"; "B.mkv"]; ["in"; "a"; "z.mov"] ] [ ["in"; "notes.txt"] ]).
    apply (Permutation_cons_app
             [ ["in"; "B.mkv"]; ["in"; "a"; "z.mov"] ] []).
    apply perm_swap.
Defined.

Example demo_discover :
  discover ["in"] folder
  = [ ["in"; "B.mkv"]; ["in"; "a"; "z.mov"]; ["in"; "a.b.webm"];
      ["in"; "b.MP4"] ].
Proof. vm_compute. reflexivity. Qed.

(** ** A tool that is not installed *)

(** X19: nothing checks that the tools can be started before the loop.
    When the prober cannot be started, the first source fails with the
    error of the launch: main prints the count, the source and the
    failure, returns 1, and the only command it has tried is the probe
    of the first source; no other source is looked at and nothing is
    left in the temporary directory. *)
Theorem main_without_prober (E : Env)
    (ffmpeg_path ffprobe_path exiftool_path : string) (out_dir : Path.t)
    (cover_time max_duration : spec_float) (fps max_width max_height : Z)
    (src : Path.t) (rest : list Path.t) (st : State)
    (msg : string) (s1 : Sys) :
  subprocess_run E (probe_cmd ffprobe_path src) (sys st)
    = (NotStarted msg, s1) ->
  let outcome := main E ffmpeg_path ffprobe_path exiftool_path out_dir
                   cover_time max_duration fps max_width max_height
                   (src :: rest) st in
  outcome.1 = 1
  /\ printed outcome.2
     = (printed st
          ++ [found (src :: rest); processing src;
              failed src (OSError msg)])%list
  /\ trace outcome.2 = (trace st ++ [probe_cmd ffprobe_path src])%list
  /\ files (sys outcome.2)
     = filter (fun kv => ~ mkdtemp E (sys st) `prefix_of` kv.1) (files s1).
Proof.
  intros Hrun outcome. subst outcome.
  rewrite main_nonempty by discriminate. cbn [batch].
  rewrite build_livp_run. cbv zeta. rewrite stages_split.
  unfold tool_stages, build_video, bind.
  rewrite (has_audio_not_started E ffprobe_path src _ msg s1)
    by (cbn [drew print sys]; exact Hrun).
  cbn. rewrite <- !app_assoc. auto.
Qed.

Lemma main_without_prober_witness :
  (main Demo.bare "ffmpeg" "ffprobe" "exiftool" Demo.out
     float_0_5 float_2_9 30 3840 2160 demo_sources Demo.empty).1 = 1
  /\ printed (main Demo.bare "ffmpeg" "ffprobe" "exiftool" Demo.out
       float_0_5 float_2_9 30 3840 2160 demo_sources Demo.empty).2
     = [ "Found 3 video file(s)."; "Processing: a.mp4";
         "Failed: a.mp4 -> [Errno 2] No such file or directory: 'ffprobe'" ].
Proof.
  destruct (main_without_prober Demo.bare "ffmpeg" "ffprobe" "exiftool"
              Demo.out float_0_5 float_2_9 30 3840 2160
              ["in"; "a.mp4"] [ ["in"; "bad.mp4"]; ["in"; "c.mp4"] ]
              Demo.empty
              "[Errno 2] No such file or directory: 'ffprobe'"
              (sys Demo.empty) eq_refl) as (H1 & H2 & _).
  split; [exact H1 | exact H2].
Defined.
